(** * UniVerify: a shallow embedding of [server.js]

    The development follows the source file top to bottom: the external
    collaborators the handlers call (the MD5 digest of node's [crypto], the
    string primitives, JSON values, the file system), the store helpers
    [readDb] and [writeDb], then the two request handlers, and finally the
    properties of the registration and verification services. *)

From Stdlib Require Import ZArith Lia Strings.Byte Ascii String List.
From stdpp Require Import base option list strings gmap.

Set Warnings "-register-all".

Local Open Scope string_scope.
Local Open Scope list_scope.

(** ** MD5 (RFC 1321)

    [md5Buffer] of the source is [crypto.createHash("md5").update(buf)
    .digest("hex")].  The digest is written out here on 32-bit words held in
    [Z], every addition reduced modulo [2^32]. *)
Module MD5.
Local Open Scope Z_scope.

Definition add32 (x y : Z) : Z := (x + y) mod 2 ^ 32.

Definition not32 (x : Z) : Z := Z.lxor x 0xffffffff.

Definition rotl32 (x s : Z) : Z :=
  Z.lor (Z.shiftl x s mod 2 ^ 32) (Z.shiftr x (32 - s)).

(** [K[i] = floor (2^32 * |sin (i + 1)|)]. *)
Definition K : list Z :=
  [ 0xd76aa478; 0xe8c7b756; 0x242070db; 0xc1bdceee;
    0xf57c0faf; 0x4787c62a; 0xa8304613; 0xfd469501;
    0x698098d8; 0x8b44f7af; 0xffff5bb1; 0x895cd7be;
    0x6b901122; 0xfd987193; 0xa679438e; 0x49b40821;
    0xf61e2562; 0xc040b340; 0x265e5a51; 0xe9b6c7aa;
    0xd62f105d; 0x02441453; 0xd8a1e681; 0xe7d3fbc8;
    0x21e1cde6; 0xc33707d6; 0xf4d50d87; 0x455a14ed;
    0xa9e3e905; 0xfcefa3f8; 0x676f02d9; 0x8d2a4c8a;
    0xfffa3942; 0x8771f681; 0x6d9d6122; 0xfde5380c;
    0xa4beea44; 0x4bdecfa9; 0xf6bb4b60; 0xbebfbc70;
    0x289b7ec6; 0xeaa127fa; 0xd4ef3085; 0x04881d05;
    0xd9d4d039; 0xe6db99e5; 0x1fa27cf8; 0xc4ac5665;
    0xf4292244; 0x432aff97; 0xab9423a7; 0xfc93a039;
    0x655b59c3; 0x8f0ccc92; 0xffeff47d; 0x85845dd1;
    0x6fa87e4f; 0xfe2ce6e0; 0xa3014314; 0x4e0811a1;
    0xf7537e82; 0xbd3af235; 0x2ad7d2bb; 0xeb86d391 ].

(** Per-round left-rotation amounts. *)
Definition R : list Z :=
  [ 7; 12; 17; 22; 7; 12; 17; 22; 7; 12; 17; 22; 7; 12; 17; 22;
    5;  9; 14; 20; 5;  9; 14; 20; 5;  9; 14; 20; 5;  9; 14; 20;
    4; 11; 16; 23; 4; 11; 16; 23; 4; 11; 16; 23; 4; 11; 16; 23;
    6; 10; 15; 21; 6; 10; 15; 21; 6; 10; 15; 21; 6; 10; 15; 21 ].

Definition nthZ (l : list Z) (i : nat) : Z := nth i l 0.

Record state := St { sa : Z; sb : Z; sc : Z; sd : Z }.

Definition init : state :=
  St 0x67452301 0xefcdab89 0x98badcfe 0x10325476.

(** The mixing function and the message-word index of operation [i]. *)
Definition mix (i : nat) (b c d : Z) : Z * nat :=
  if (i <? 16)%nat then
    (Z.lor (Z.land b c) (Z.land (not32 b) d), i)
  else if (i <? 32)%nat then
    (Z.lor (Z.land d b) (Z.land (not32 d) c), (5 * i + 1) mod 16)%nat
  else if (i <? 48)%nat then
    (Z.lxor (Z.lxor b c) d, (3 * i + 5) mod 16)%nat
  else
    (Z.lxor c (Z.lor b (not32 d)), (7 * i) mod 16)%nat.

Definition op (m : list Z) (s : state) (i : nat) : state :=
  let '(f, g) := mix i (sb s) (sc s) (sd s) in
  let f' := add32 (add32 (add32 f (sa s)) (nthZ K i)) (nthZ m g) in
  St (sd s) (add32 (sb s) (rotl32 f' (nthZ R i))) (sb s) (sc s).

Definition block (s : state) (m : list Z) : state :=
  let t := fold_left (op m) (seq 0 64) s in
  St (add32 (sa s) (sa t)) (add32 (sb s) (sb t))
     (add32 (sc s) (sc t)) (add32 (sd s) (sd t)).

(** Little-endian conversions between bytes and words. *)
Definition byteZ (b : byte) : Z := Z.of_N (Byte.to_N b).

Definition le_word (bs : list Z) : Z :=
  fold_right (fun b acc => b + 256 * acc) 0 bs.

Fixpoint le_bytes (n : nat) (x : Z) : list Z :=
  match n with
  | O => []
  | S n' => x mod 256 :: le_bytes n' (x / 256)
  end.

(** Cut a list in chunks of [k] elements ([fuel] bounds the number of
    chunks; the length of the list is always enough). *)
Fixpoint chunks {A} (fuel k : nat) (l : list A) : list (list A) :=
  match fuel, l with
  | O, _ | _, [] => []
  | S fuel', _ => firstn k l :: chunks fuel' k (skipn k l)
  end.

(** Padding: a single [0x80], zeros up to 56 modulo 64, then the bit
    length on 64 bits. *)
Definition pad (msg : list Z) : list Z :=
  let n := Z.of_nat (length msg) in
  let zeros := Z.to_nat ((55 - n) mod 64) in
  msg ++ 0x80 :: repeat 0 zeros ++ le_bytes 8 ((8 * n) mod 2 ^ 64).

Definition digest (buf : list byte) : list Z :=
  let p := pad (map byteZ buf) in
  let blocks := map (fun blk => map le_word (chunks 16 4 blk))
                    (chunks (length p) 64 p) in
  let s := fold_left block blocks init in
  le_bytes 4 (sa s) ++ le_bytes 4 (sb s) ++
  le_bytes 4 (sc s) ++ le_bytes 4 (sd s).

Definition hex_digit (d : Z) : ascii :=
  if d <? 10 then ascii_of_N (Z.to_N (48 + d))
  else ascii_of_N (Z.to_N (87 + d)).

Fixpoint hex (bs : list Z) : string :=
  match bs with
  | [] => EmptyString
  | b :: bs' => String (hex_digit (b / 16)) (String (hex_digit (b mod 16)) (hex bs'))
  end.
End MD5.

(** Byte buffers, as multer's memory storage hands them over. *)
Definition Buffer := list byte.

Definition md5Buffer (buf : Buffer) : string := MD5.hex (MD5.digest buf).

Definition bytes_of_string (s : string) : Buffer := list_byte_of_string s.

Arguments md5Buffer : simpl never.

(** ** JavaScript strings

    A [string] stands for a JavaScript string whose code units are below 256,
    one character per code unit.  In that range [String.prototype.trim]
    strips TAB, LF, VT, FF, CR, SPACE and NO-BREAK SPACE. *)
Definition is_white_space (c : ascii) : bool :=
  match N_of_ascii c with
  | 9 | 10 | 11 | 12 | 13 | 32 | 160 => true
  | _ => false
  end%N.

Fixpoint trimStart (s : string) : string :=
  match s with
  | EmptyString => EmptyString
  | String c s' => if is_white_space c then trimStart s' else s
  end.

Fixpoint trimEnd (s : string) : string :=
  match s with
  | EmptyString => EmptyString
  | String c s' =>
      match trimEnd s' with
      | EmptyString => if is_white_space c then EmptyString else String c EmptyString
      | t => String c t
      end
  end.

Definition trim (s : string) : string := trimEnd (trimStart s).

(** ** JSON values

    What [JSON.parse] produces and [JSON.stringify] consumes.  An object is
    the list of its own properties; numbers are kept to the integers, which
    is all the handlers can tell apart (zero is falsy). *)
Inductive json : Type :=
| JNull
| JBool (b : bool)
| JNum (n : Z)
| JStr (s : string)
| JArr (items : list json)
| JObj (props : list (string * json)).

(** A JavaScript value of the handlers: a JSON value or [undefined]. *)
Definition value := option json.
Definition undefined : value := None.

(** [!v] is [negb (truthy v)]. *)
Definition truthy (v : value) : bool :=
  match v with
  | None | Some JNull | Some (JBool false) | Some (JNum 0) | Some (JStr "") => false
  | Some _ => true
  end.

Fixpoint assoc (k : string) (props : list (string * json)) : value :=
  match props with
  | [] => undefined
  | (k', v) :: props' => if String.eqb k k' then Some v else assoc k props'
  end.

(** An object literal; [JSON.stringify] (hence [res.json]) leaves out the
    properties whose value is [undefined]. *)
Definition object (props : list (string * value)) : json :=
  JObj (omap (fun '(k, v) => pair k <$> v) props).

(** [a === b] for two values of the handlers. *)
Definition strict_eq_str (v : value) (s : string) : bool :=
  match v with
  | Some (JStr s') => String.eqb s' s
  | _ => false
  end.

(** ** Exceptions and results *)
Record exn := Exn { exn_name : string; exn_message : string }.

Definition TypeError (msg : string) : exn := Exn "TypeError" msg.
Definition SyntaxError (msg : string) : exn := Exn "SyntaxError" msg.

(** [String(e)]. *)
Definition String_of_exn (e : exn) : string :=
  exn_name e +:+ ": " +:+ exn_message e.

Inductive result (A : Type) : Type :=
| Ok (a : A)
| Throw (e : exn).
Arguments Ok {A} a.
Arguments Throw {A} e.

(** [v.k] for one of the property names the handlers read ([certificates],
    [md5], [studentName], [degree], [issueDate], [createdAt]); none of them
    is inherited from a prototype, so only an object can have it. *)
Definition get (v : json) (k : string) : result value :=
  match v with
  | JNull =>
      Throw (TypeError ("Cannot read properties of null (reading '" +:+ k +:+ "')"))
  | JObj props => Ok (assoc k props)
  | _ => Ok undefined
  end.

(** [Array.prototype.find]: the first element the callback accepts; an
    exception of the callback stops the scan. *)
Fixpoint Array_find (p : json -> result bool) (items : list json) : result value :=
  match items with
  | [] => Ok undefined
  | c :: items' =>
      match p c with
      | Throw e => Throw e
      | Ok true => Ok (Some c)
      | Ok false => Array_find p items'
      end
  end.

(** ** The process and its file system *)

(** The content of a text file, up to what [JSON.parse] makes of it. *)
Inductive text : Type :=
| Malformed (raw : string)
| Stringified (v : json).

Definition JSON_parse (t : text) : result json :=
  match t with
  | Malformed raw => Throw (SyntaxError "Unexpected token in JSON")
  | Stringified v => Ok v
  end.

Definition JSON_stringify (v : json) : text := Stringified v.

Definition path_join (dir name : string) : string := dir +:+ "/" +:+ name.

(** Local JSON "database" file path, and the folder of the uploaded PDFs
    (both relative to [process.cwd()]). *)
Definition DATA_DIR : string := "data".
Definition DATA_FILE : string := path_join DATA_DIR "certificates.json".
Definition UPLOADS_DIR : string := "uploads".

Record world := World {
  ADMIN_TOKEN : option string;          (* process.env.ADMIN_TOKEN *)
  data_file : option text;              (* data/certificates.json *)
  uploads : gmap string Buffer          (* uploads/<name> *)
}.

(** The system calls that change the file system. *)
Inductive event : Type :=
| Mkdir (dir : string)
| WriteFile (path : string).

Global Instance event_eq_dec : EqDecision event.
Proof. solve_decision. Defined.

(** What a failed call leaves behind.  [fs.mkdir] leaves nothing;
    [fs.writeFile] opens its file with the flag [w]: it fails either before
    the open, the file untouched, or after it, the file truncated and holding
    only the bytes written so far. *)
Inductive damage : Type :=
| Untouched
| Truncated (kept : Buffer).

Record failed := Failed {
  error : exn;
  damage_done : damage
}.

(** What a request draws from outside the file system: the random bytes,
    the clock, and which system calls fail (with which error, leaving
    what). *)
Record oracle := Oracle {
  randomBytes_hex : string;             (* crypto.randomBytes(8).toString("hex") *)
  now_iso : string;                     (* new Date().toISOString() *)
  fault : event -> option failed
}.

(** ** The monad of the handlers: oracle, world, exceptions, trace *)
Definition M (A : Type) : Type :=
  oracle -> world -> result A * world * list event.

Global Instance M_ret : MRet M := fun A a _ w => (Ok a, w, []).

Global Instance M_bind : MBind M := fun A B f m o w =>
  match m o w with
  | (Ok a, w1, t1) =>
      let '(r, w2, t2) := f a o w1 in (r, w2, t1 ++ t2)
  | (Throw e, w1, t1) => (Throw e, w1, t1)
  end.

Definition throw {A} (e : exn) : M A := fun _ w => (Throw e, w, []).

Definition lift {A} (r : result A) : M A := fun _ w => (r, w, []).

(** [try { m } catch (e) { h e }]. *)
Definition try_catch {A} (m : M A) (h : exn -> M A) : M A := fun o w =>
  match m o w with
  | (Ok a, w1, t1) => (Ok a, w1, t1)
  | (Throw e, w1, t1) =>
      let '(r, w2, t2) := h e o w1 in (r, w2, t1 ++ t2)
  end.

(** A system call: it performs [f] and is recorded in the trace, or it
    fails as the oracle says, leaving the world untouched or, for a write cut
    short, as [cut] makes it. *)
Definition syscall (ev : event) (f : world -> world)
    (cut : Buffer -> world -> world) : M unit := fun o w =>
  match fault o ev with
  | Some (Failed e Untouched) => (Throw e, w, [])
  | Some (Failed e (Truncated kept)) => (Throw e, cut kept w, [])
  | None => (Ok tt, f w, [ev])
  end.

Definition process_env_ADMIN_TOKEN : M (option string) :=
  fun _ w => (Ok (ADMIN_TOKEN w), w, []).

Definition crypto_randomBytes_hex : M string :=
  fun o w => (Ok (randomBytes_hex o), w, []).

Definition Date_toISOString : M string :=
  fun o w => (Ok (now_iso o), w, []).

(** [fs.mkdir(dir, { recursive: true })]. *)
Definition fs_mkdir (dir : string) : M unit :=
  syscall (Mkdir dir) id (fun _ w => w).

(** [fs.readFile(DATA_FILE, "utf8")]. *)
Definition fs_readFile_data : M text := fun _ w =>
  match data_file w with
  | Some t => (Ok t, w, [])
  | None =>
      (Throw (Exn "Error" ("ENOENT: no such file or directory, open '" +:+ DATA_FILE +:+ "'")),
       w, [])
  end.

(** [fs.writeFile(DATA_FILE, text, "utf8")].  The text written is that of
    an object, so a cut of it is not JSON. *)
Definition fs_writeFile_data (t : text) : M unit :=
  syscall (WriteFile DATA_FILE)
          (fun w => World (ADMIN_TOKEN w) (Some t) (uploads w))
          (fun kept w =>
             World (ADMIN_TOKEN w) (Some (Malformed (string_of_list_byte kept)))
                   (uploads w)).

(** [fs.writeFile(path.join(UPLOADS_DIR, filename), buffer)]. *)
Definition fs_writeFile_upload (filename : string) (buf : Buffer) : M unit :=
  syscall (WriteFile (path_join UPLOADS_DIR filename))
          (fun w => World (ADMIN_TOKEN w) (data_file w) (<[filename := buf]> (uploads w)))
          (fun kept w =>
             World (ADMIN_TOKEN w) (data_file w) (<[filename := kept]> (uploads w))).

Global Instance result_ret : MRet result := fun A a => Ok a.

Global Instance result_bind : MBind result := fun A B f r =>
  match r with
  | Ok a => f a
  | Throw e => Throw e
  end.

(** ** The store helpers *)

(** The object [readDb] returns and [writeDb] takes:
    [{ certificates: ... }]. *)
Record db := Db { certificates : json }.

(** [v || d]. *)
Definition or_else (v : value) (d : json) : json :=
  match v with
  | Some x => if truthy v then x else d
  | None => d
  end.

(** Read database from data/certificates.json. *)
Definition readDb : M db :=
  try_catch
    (raw ← fs_readFile_data;
     parsed ← lift (JSON_parse raw);
     c ← lift (get parsed "certificates");
     mret (Db (or_else c (JArr []))))
    (fun _ => mret (Db (JArr []))).

(** Write database back to data/certificates.json. *)
Definition writeDb (d : db) : M unit :=
  fs_mkdir DATA_DIR;;
  fs_writeFile_data (JSON_stringify (JObj [("certificates", certificates d)])).

(** The callback of the scan: [c => c.md5 === md5]. *)
Definition same_md5 (md5 : string) (c : json) : result bool :=
  v ← get c "md5"; mret (strict_eq_str v md5).

(** [db.certificates.find(c => c.md5 === md5)]. *)
Definition certificates_find (d : db) (md5 : string) : result value :=
  match certificates d with
  | JArr items => Array_find (same_md5 md5) items
  | _ => Throw (TypeError "db.certificates.find is not a function")
  end.

(** [db.certificates.unshift(record)]. *)
Definition certificates_unshift (d : db) (record : json) : result db :=
  match certificates d with
  | JArr items => Ok (Db (JArr (record :: items)))
  | _ => Throw (TypeError "db.certificates.unshift is not a function")
  end.

(** ** Requests and responses

    A request as the handlers see it once the multer middleware has run.
    For a multipart request [req.body] is an object without prototype that
    maps each field name to what the form sent under it: a string, an array
    when the name is repeated or written [name[]] or [name[0]] (possibly
    with holes), or again an object without prototype when it is written
    [name[key]].  For any other request the middleware passes it on
    untouched and [req.body] is [undefined]. *)
Inductive form_value : Type :=
| FStr (s : string)
| FArr (items : list (option form_value))
| FObj (props : list (string * form_value)).

Record file := File {
  buffer : option Buffer;
  mimetype : string
}.

Record request := Request {
  req_body : option (gmap string form_value);
  req_file : option file
}.

Record response := Response {
  status : nat;
  body : json
}.

(** [res.json(v)] and [res.status(code).json(v)]. *)
Definition res_json (v : json) : response := Response 200 v.
Definition res_status_json (code : nat) (v : json) : response := Response code v.

(** The abstract operation [ToString], as [Array.prototype.join] applies
    it to the elements of an array: a hole counts as the empty string, and an
    object without prototype cannot be converted. *)
Fixpoint ToString (v : form_value) : result string :=
  match v with
  | FStr s => Ok s
  | FArr items =>
      (fix join (l : list (option form_value)) : result string :=
         match l with
         | [] => Ok ""
         | x :: l' =>
             s ← match x with
                 | None => Ok ""
                 | Some v' => ToString v'
                 end;
             match l' with
             | [] => Ok s
             | _ :: _ => t ← join l'; Ok (s +:+ "," +:+ t)
             end
         end) items
  | FObj _ => Throw (TypeError "Cannot convert object to primitive value")
  end.

(** [v.toString()], [callee] being the text of the expression [v.toString]:
    a string is itself, an array is its elements joined by commas, and an
    object without prototype has no such method. *)
Definition toString (callee : string) (v : form_value) : result string :=
  match v with
  | FObj _ => Throw (TypeError (callee +:+ " is not a function"))
  | _ => ToString v
  end.

(** [v || ""]: only [undefined] and the empty string are falsy. *)
Definition or_empty (v : option form_value) : form_value :=
  match v with
  | None | Some (FStr "") => FStr ""
  | Some x => x
  end.

Definition empty_literal : string := String "034"%char (String "034"%char "").

(** [(req.body.name || "").toString()]. *)
Definition submitted (req : request) (name : string) : result string :=
  match req_body req with
  | None =>
      Throw (TypeError ("Cannot read properties of undefined (reading '"
                        +:+ name +:+ "')"))
  | Some b =>
      toString ("(req.body." +:+ name +:+ " || " +:+ empty_literal +:+ ").toString")
               (or_empty (b !! name))
  end.

(** [(req.body.name || "").toString().trim()]. *)
Definition field (req : request) (name : string) : result string :=
  s ← submitted req name; mret (trim s).

Definition failure (code : nat) (message : string) : response :=
  res_status_json code (JObj [("ok", JBool false); ("message", JStr message)]).

(** The [catch (e)] clause shared by both handlers. *)
Definition server_error (e : exn) : response :=
  res_status_json 500
    (JObj [("ok", JBool false); ("message", JStr "Server error");
           ("error", JStr (String_of_exn e))]).

(** [try { ... } catch (e) { return res.status(500).json(...) }]: the
    response, the world after the request and the system calls made. *)
Definition respond (m : M response) (o : oracle) (w : world)
  : response * world * list event :=
  match m o w with
  | (Ok r, w', t) => (r, w', t)
  | (Throw e, w', t) => (server_error e, w', t)
  end.

(** ** POST /api/university/upload *)
Definition new_record (id md5 studentName degree issueDate filename createdAt : string)
  : json :=
  JObj [("id", JStr id); ("md5", JStr md5); ("studentName", JStr studentName);
        ("degree", JStr degree); ("issueDate", JStr issueDate);
        ("storedFile", JStr filename); ("createdAt", JStr createdAt)].

Definition university_upload_try (req : request) : M response :=
  token ← lift (field req "token");
  admin ← process_env_ADMIN_TOKEN;
  (* Simple auth check *)
  if bool_decide (token = "") || negb (bool_decide (Some token = admin)) then
    mret (failure 401 "Unauthorized (token)")
  else
  (* File validation *)
  match req_file req with
  | None => mret (failure 400 "PDF file is required")
  | Some f =>
  match buffer f with
  | None => mret (failure 400 "PDF file is required")
  | Some buf =>
  (* Basic MIME check *)
  if negb (bool_decide (mimetype f = "application/pdf")) then
    mret (failure 400 "Only PDF is allowed")
  else
  (* Metadata validation *)
  studentName ← lift (field req "studentName");
  degree ← lift (field req "degree");
  issueDate ← lift (field req "issueDate");
  if bool_decide (studentName = "") || bool_decide (degree = "")
     || bool_decide (issueDate = "") then
    mret (failure 400 "Missing fields")
  else
  (* Compute MD5 fingerprint *)
  let md5 := md5Buffer buf in
  (* Create an ID for the stored file / record *)
  id ← crypto_randomBytes_hex;
  let filename := id +:+ ".pdf" in
  (* Store PDF locally (optional) *)
  fs_mkdir UPLOADS_DIR;;
  fs_writeFile_upload filename buf;;
  (* Load database *)
  d ← readDb;
  (* Prevent duplicates by MD5 *)
  exists_ ← lift (certificates_find d md5);
  if truthy exists_ then
    mret (res_json (object
      [("ok", Some (JBool true));
       ("message", Some (JStr "Certificate already exists with the same MD5"));
       ("md5", Some (JStr md5));
       ("certificate", exists_)]))
  else
  (* Store record *)
  createdAt ← Date_toISOString;
  let record := new_record id md5 studentName degree issueDate filename createdAt in
  d' ← lift (certificates_unshift d record);
  writeDb d';;
  mret (res_json (JObj [("ok", JBool true); ("md5", JStr md5); ("certificate", record)]))
  end
  end.

Definition university_upload (req : request) := respond (university_upload_try req).

(** ** POST /api/verify *)
Definition no_match (md5 : string) : response :=
  res_json (JObj [("ok", JBool true); ("valid", JBool false); ("md5", JStr md5);
                  ("message", JStr "No match found")]).

Definition verify_try (req : request) : M response :=
  match req_file req with
  | None => mret (failure 400 "PDF file is required")
  | Some f =>
  match buffer f with
  | None => mret (failure 400 "PDF file is required")
  | Some buf =>
  if negb (bool_decide (mimetype f = "application/pdf")) then
    mret (failure 400 "Only PDF is allowed")
  else
  let md5 := md5Buffer buf in
  d ← readDb;
  found ← lift (certificates_find d md5);
  match found with
  | None => mret (no_match md5)
  | Some c =>
      if negb (truthy found) then mret (no_match md5)
      else
        studentName ← lift (get c "studentName");
        degree ← lift (get c "degree");
        issueDate ← lift (get c "issueDate");
        createdAt ← lift (get c "createdAt");
        mret (res_json (object
          [("ok", Some (JBool true)); ("valid", Some (JBool true));
           ("md5", Some (JStr md5));
           ("certificate", Some (object
              [("studentName", studentName); ("degree", degree);
               ("issueDate", issueDate); ("createdAt", createdAt)]))]))
  end
  end
  end.

Definition verify (req : request) := respond (verify_try req).

(** ** The routes of the application *)
Inductive route : Type :=
| POST_university_upload            (* app.post("/api/university/upload", ...) *)
| POST_verify.                      (* app.post("/api/verify", ...) *)

(** The [try] block of a route, and the route as a whole. *)
Definition handler_try (rt : route) : request -> M response :=
  match rt with
  | POST_university_upload => university_upload_try
  | POST_verify => verify_try
  end.

Definition handler (rt : route) (req : request) := respond (handler_try rt req).

(** * Specification vocabulary

    The predicates and functions the properties below are stated with. *)

(** ** Trimming *)
Arguments is_white_space : simpl never.

Definition starts_white (s : string) : bool :=
  match s with
  | EmptyString => false
  | String c _ => is_white_space c
  end.

Fixpoint ends_white (s : string) : bool :=
  match s with
  | EmptyString => false
  | String c EmptyString => is_white_space c
  | String _ s' => ends_white s'
  end.

Fixpoint all_white (s : string) : bool :=
  match s with
  | EmptyString => true
  | String c s' => is_white_space c && all_white s'
  end.

(** [t] is [s] without its leading and trailing white space. *)
Definition stripped (s t : string) : Prop :=
  exists l r, s = l +:+ t +:+ r
    /\ all_white l = true /\ all_white r = true
    /\ starts_white t = false /\ ends_white t = false.

(** ** The store as the handlers read it *)

(** The object [readDb] returns in world [w] ([readDb_loadAll] below). *)
Definition loadAll (w : world) : db :=
  match data_file w with
  | Some (Stringified v) =>
      match get v "certificates" with
      | Ok c => Db (or_else c (JArr []))
      | Throw _ => Db (JArr [])
      end
  | _ => Db (JArr [])
  end.

(** [findByDigest]: the scan of the freshly read store. *)
Definition findByDigest (w : world) (md5 : string) : result value :=
  certificates_find (loadAll w) md5.

(** The records of a store, when it holds a sequence. *)
Definition records (d : db) : list json :=
  match certificates d with
  | JArr items => items
  | _ => []
  end.

(** The digest a stored element answers to, if any. *)
Definition digest_of (c : json) : option string :=
  match c with
  | JObj props =>
      match assoc "md5" props with
      | Some (JStr s) => Some s
      | _ => None
      end
  | _ => None
  end.

Definition digests (items : list json) : list string := omap digest_of items.

(** ** Preconditions of the handlers *)

(** The trimmed value of a field that can be read (the empty string stands
    for one that cannot). *)
Definition field_value (req : request) (name : string) : string :=
  match field req name with
  | Ok s => s
  | Throw _ => ""
  end.

(** The token check passes: the token can be read, and once trimmed it is
    non-empty and is the configured secret. *)
Definition authorized (w : world) (req : request) : Prop :=
  exists token,
    field req "token" = Ok token /\ token <> "" /\ ADMIN_TOKEN w = Some token.

(** The three metadata fields, read in the order of the handler: the first
    that cannot be read raises. *)
Definition metadata (req : request) : result (string * string * string) :=
  studentName ← field req "studentName";
  degree ← field req "degree";
  issueDate ← field req "issueDate";
  mret (studentName, degree, issueDate).

(** The request carries an upload with buffer [buf] and the PDF type. *)
Definition pdf (req : request) (buf : Buffer) : Prop :=
  exists f, req_file req = Some f /\ buffer f = Some buf
            /\ mimetype f = "application/pdf".

(** No upload: [!req.file || !req.file.buffer]. *)
Definition no_file (req : request) : Prop :=
  req_file req = None \/ exists f, req_file req = Some f /\ buffer f = None.

Definition fields_present (req : request) : Prop :=
  exists studentName degree issueDate,
    metadata req = Ok (studentName, degree, issueDate)
    /\ studentName <> "" /\ degree <> "" /\ issueDate <> "".

Definition accepted (w : world) (req : request) (buf : Buffer) : Prop :=
  authorized w req /\ pdf req buf /\ fields_present req.

(** ** What a registration leaves behind *)
Definition filename_of (o : oracle) : string := randomBytes_hex o +:+ ".pdf".

Definition record_of (req : request) (o : oracle) (buf : Buffer) : json :=
  new_record (randomBytes_hex o) (md5Buffer buf)
             (field_value req "studentName") (field_value req "degree")
             (field_value req "issueDate")
             (filename_of o) (now_iso o).

(** The world once the upload is archived, and once the store is rewritten. *)
Definition archived (o : oracle) (buf : Buffer) (w : world) : world :=
  World (ADMIN_TOKEN w) (data_file w) (<[filename_of o := buf]> (uploads w)).

Definition rewritten (items : list json) (w : world) : world :=
  World (ADMIN_TOKEN w)
        (Some (Stringified (JObj [("certificates", JArr items)])))
        (uploads w).

(** The world after a write of the upload, or of the snapshot file, that
    failed. *)
Definition cut_archive (o : oracle) (d : damage) (w : world) : world :=
  match d with
  | Untouched => w
  | Truncated kept =>
      World (ADMIN_TOKEN w) (data_file w) (<[filename_of o := kept]> (uploads w))
  end.

Definition cut_store (d : damage) (w : world) : world :=
  match d with
  | Untouched => w
  | Truncated kept =>
      World (ADMIN_TOKEN w) (Some (Malformed (string_of_list_byte kept))) (uploads w)
  end.

Definition archive_calls (o : oracle) : list event :=
  [Mkdir UPLOADS_DIR; WriteFile (path_join UPLOADS_DIR (filename_of o))].

Definition store_calls : list event := [Mkdir DATA_DIR; WriteFile DATA_FILE].

Definition duplicate_response (md5 : string) (c : json) : response :=
  res_json (JObj [("ok", JBool true);
                  ("message", JStr "Certificate already exists with the same MD5");
                  ("md5", JStr md5); ("certificate", c)]).

Definition created_response (md5 : string) (record : json) : response :=
  res_json (JObj [("ok", JBool true); ("md5", JStr md5); ("certificate", record)]).

(** Every way a registration request can end: the response, the world it
    leaves and the system calls it made. *)
Inductive upload_outcome (req : request) (o : oracle) (w : world)
  : response * world * list event -> Prop :=
| Up_token_unreadable e :
    field req "token" = Throw e ->
    upload_outcome req o w (server_error e, w, [])
| Up_unauthorized token :
    field req "token" = Ok token ->
    ~ authorized w req ->
    upload_outcome req o w (failure 401 "Unauthorized (token)", w, [])
| Up_no_file :
    authorized w req -> no_file req ->
    upload_outcome req o w (failure 400 "PDF file is required", w, [])
| Up_not_pdf f buf :
    authorized w req ->
    req_file req = Some f -> buffer f = Some buf ->
    mimetype f <> "application/pdf" ->
    upload_outcome req o w (failure 400 "Only PDF is allowed", w, [])
| Up_fields_unreadable buf e :
    authorized w req -> pdf req buf ->
    metadata req = Throw e ->
    upload_outcome req o w (server_error e, w, [])
| Up_missing_fields buf studentName degree issueDate :
    authorized w req -> pdf req buf ->
    metadata req = Ok (studentName, degree, issueDate) ->
    studentName = "" \/ degree = "" \/ issueDate = "" ->
    upload_outcome req o w (failure 400 "Missing fields", w, [])
| Up_mkdir_uploads_fails buf e d :
    accepted w req buf ->
    fault o (Mkdir UPLOADS_DIR) = Some (Failed e d) ->
    upload_outcome req o w (server_error e, w, [])
| Up_archive_fails buf e d :
    accepted w req buf ->
    fault o (Mkdir UPLOADS_DIR) = None ->
    fault o (WriteFile (path_join UPLOADS_DIR (filename_of o))) = Some (Failed e d) ->
    upload_outcome req o w (server_error e, cut_archive o d w, [Mkdir UPLOADS_DIR])
| Up_find_throws buf e :
    accepted w req buf ->
    fault o (Mkdir UPLOADS_DIR) = None ->
    fault o (WriteFile (path_join UPLOADS_DIR (filename_of o))) = None ->
    findByDigest w (md5Buffer buf) = Throw e ->
    upload_outcome req o w (server_error e, archived o buf w, archive_calls o)
| Up_duplicate buf c :
    accepted w req buf ->
    fault o (Mkdir UPLOADS_DIR) = None ->
    fault o (WriteFile (path_join UPLOADS_DIR (filename_of o))) = None ->
    findByDigest w (md5Buffer buf) = Ok (Some c) ->
    upload_outcome req o w
      (duplicate_response (md5Buffer buf) c, archived o buf w, archive_calls o)
| Up_mkdir_data_fails buf e d :
    accepted w req buf ->
    fault o (Mkdir UPLOADS_DIR) = None ->
    fault o (WriteFile (path_join UPLOADS_DIR (filename_of o))) = None ->
    findByDigest w (md5Buffer buf) = Ok None ->
    fault o (Mkdir DATA_DIR) = Some (Failed e d) ->
    upload_outcome req o w (server_error e, archived o buf w, archive_calls o)
| Up_store_fails buf e d :
    accepted w req buf ->
    fault o (Mkdir UPLOADS_DIR) = None ->
    fault o (WriteFile (path_join UPLOADS_DIR (filename_of o))) = None ->
    findByDigest w (md5Buffer buf) = Ok None ->
    fault o (Mkdir DATA_DIR) = None ->
    fault o (WriteFile DATA_FILE) = Some (Failed e d) ->
    upload_outcome req o w
      (server_error e, cut_store d (archived o buf w),
       archive_calls o ++ [Mkdir DATA_DIR])
| Up_created buf :
    accepted w req buf ->
    findByDigest w (md5Buffer buf) = Ok None ->
    fault o (Mkdir UPLOADS_DIR) = None ->
    fault o (WriteFile (path_join UPLOADS_DIR (filename_of o))) = None ->
    fault o (Mkdir DATA_DIR) = None ->
    fault o (WriteFile DATA_FILE) = None ->
    upload_outcome req o w
      (created_response (md5Buffer buf) (record_of req o buf),
       rewritten (record_of req o buf :: records (loadAll w)) (archived o buf w),
       archive_calls o ++ store_calls).

(** ** What a verification answers *)

(** [c.k] for a stored element the scan has accepted. *)
Definition prop (c : json) (k : string) : value :=
  match c with
  | JObj props => assoc k props
  | _ => undefined
  end.

Definition match_response (md5 : string) (c : json) : response :=
  res_json (object
    [("ok", Some (JBool true)); ("valid", Some (JBool true));
     ("md5", Some (JStr md5));
     ("certificate", Some (object
        [("studentName", prop c "studentName"); ("degree", prop c "degree");
         ("issueDate", prop c "issueDate"); ("createdAt", prop c "createdAt")]))]).

Inductive verify_outcome (req : request) (o : oracle) (w : world)
  : response * world * list event -> Prop :=
| V_no_file :
    no_file req ->
    verify_outcome req o w (failure 400 "PDF file is required", w, [])
| V_not_pdf f buf :
    req_file req = Some f -> buffer f = Some buf ->
    mimetype f <> "application/pdf" ->
    verify_outcome req o w (failure 400 "Only PDF is allowed", w, [])
| V_find_throws buf e :
    pdf req buf ->
    findByDigest w (md5Buffer buf) = Throw e ->
    verify_outcome req o w (server_error e, w, [])
| V_no_match buf :
    pdf req buf ->
    findByDigest w (md5Buffer buf) = Ok None ->
    verify_outcome req o w (no_match (md5Buffer buf), w, [])
| V_match buf c :
    pdf req buf ->
    findByDigest w (md5Buffer buf) = Ok (Some c) ->
    verify_outcome req o w (match_response (md5Buffer buf) c, w, []).

(** ** Reading requests, responses and traces *)

(** What the form sent under a name, if the request has a body. *)
Definition sent (req : request) (name : string) : option form_value :=
  b ← req_body req; b !! name.

(** The text of a field as [(req.body.name || "").toString()] gives it,
    when the field can be read (the empty string stands for one that
    cannot). *)
Definition submitted_text (req : request) (name : string) : string :=
  match submitted req name with
  | Ok s => s
  | Throw _ => ""
  end.

Definition response_prop (r : response) (k : string) : value := prop (body r) k.

Definition certificate_prop (r : response) (k : string) : value :=
  c ← response_prop r "certificate"; prop c k.

Definition keys (v : json) : list string :=
  match v with
  | JObj props => fst <$> props
  | _ => []
  end.

(** The property names a response shows: its own and those of the
    certificate it carries. *)
Definition exposed (r : response) : list string :=
  keys (body r) ++ from_option keys [] (response_prop r "certificate").

Definition is_blob_write (ev : event) : bool :=
  match ev with
  | WriteFile path => String.prefix (UPLOADS_DIR +:+ "/") path
  | Mkdir _ => false
  end.

Definition is_store_write (ev : event) : bool :=
  bool_decide (ev = WriteFile DATA_FILE).

Definition blob_writes (t : list event) : nat :=
  length (List.filter is_blob_write t).
Definition store_writes (t : list event) : nat :=
  length (List.filter is_store_write t).

(** Which requests reach the file check of a route: registration checks the
    token first. *)
Definition reaches_file_check (rt : route) (w : world) (req : request) : Prop :=
  match rt with
  | POST_university_upload => authorized w req
  | POST_verify => True
  end.

(** ** Digests, blank fields, the shape of the store, sequences of requests *)

Definition is_hex_digit (c : ascii) : bool :=
  let n := N_of_ascii c in
  ((48 <=? n) && (n <=? 57) || (97 <=? n) && (n <=? 102))%N.

Fixpoint all_hex (s : string) : bool :=
  match s with
  | EmptyString => true
  | String c s' => is_hex_digit c && all_hex s'
  end.

(** A form field whose text, [(req.body.name || "").toString()], can be
    read and is empty or made of white space only; a field that is not sent
    is one. *)
Definition blank (req : request) (name : string) : Prop :=
  exists raw, submitted req name = Ok raw /\ all_white raw = true.

(** No system call fails. *)
Definition healthy (o : oracle) : Prop := forall ev, fault o ev = None.

(** The form fields the route reads can all be read: the request has a
    body, and none of the fields was sent under a bracketed name that makes
    it, or an element of it, an object.  Verification reads none. *)
Definition readable (rt : route) (req : request) : Prop :=
  match rt with
  | POST_university_upload =>
      forall name, name ∈ ["token"; "studentName"; "degree"; "issueDate"] ->
                   exists s, submitted req name = Ok s
  | POST_verify => True
  end.

(** An element of the store as the registration handler writes it. *)
Definition is_record (c : json) : Prop :=
  exists id md5 studentName degree issueDate filename createdAt,
    c = new_record id md5 studentName degree issueDate filename createdAt.

(** A store every scan gets through: a sequence without [null]. *)
Definition scannable (d : db) : Prop :=
  exists items, certificates d = JArr items /\ Forall (fun c => c <> JNull) items.

(** A store made of records of the handler, one per digest. *)
Definition sound_store (w : world) : Prop :=
  exists items,
    certificates (loadAll w) = JArr items
    /\ Forall is_record items /\ NoDup (digests items).

(** Requests served one after the other, each with its own oracle: the
    responses in order and the world at the end. *)
Fixpoint serve_all (reqs : list (route * request * oracle)) (w : world)
  : list response * world :=
  match reqs with
  | [] => ([], w)
  | (rt, req, o) :: reqs' =>
      let '(r, w1, _) := handler rt req o w in
      let '(rs, w2) := serve_all reqs' w1 in
      (r :: rs, w2)
  end.

(** ** A running scenario

    The scenario of the specification: a PDF [X] registered for Alice with
    the secret ["s3cret"], then presented again. *)
Module Scenario.
Definition X : Buffer := bytes_of_string "%PDF-1.4".
Definition Y : Buffer := bytes_of_string "%PDF-1.7".

Definition never_fails : event -> option failed := fun _ => None.
Definition o1 : oracle :=
  Oracle "0123456789abcdef" "2024-01-01T00:00:00.000Z" never_fails.
Definition o2 : oracle :=
  Oracle "fedcba9876543210" "2025-06-30T12:00:00.000Z" never_fails.

Definition form (token studentName degree issueDate : string)
  : option (gmap string form_value) :=
  Some (<["token" := FStr token]>
          (<["studentName" := FStr studentName]>
             (<["degree" := FStr degree]> (<["issueDate" := FStr issueDate]> ∅)))).

Definition pdf_part (buf : Buffer) : option file :=
  Some (File (Some buf) "application/pdf").

Definition alice : request :=
  Request (form "s3cret" "Alice" "BSc" "2024-01-01") (pdf_part X).
Definition bob : request :=
  Request (form "s3cret" "Bob" "MSc" "2025-06-30") (pdf_part X).
Definition padded_token : request :=
  Request (form " s3cret " "Alice" "BSc" "2024-01-01") (pdf_part X).
Definition padded_name : request :=
  Request (form "s3cret" "  Alice " "BSc" "2024-01-01") (pdf_part X).

Definition alice_record : json :=
  new_record "0123456789abcdef" "914240125319291c7cb7e712e419b254"
             "Alice" "BSc" "2024-01-01" "0123456789abcdef.pdf"
             "2024-01-01T00:00:00.000Z".

Definition empty_pdf : request :=
  Request (form "s3cret" "Alice" "BSc" "2024-01-01") (pdf_part []).

(** A disk that refuses every change. *)
Definition read_only_disk : oracle :=
  Oracle "0123456789abcdef" "2024-01-01T00:00:00.000Z"
    (fun ev =>
       match ev with
       | Mkdir dir =>
           Some (Failed (Exn "Error" ("EACCES: permission denied, mkdir '" +:+ dir +:+ "'"))
                        Untouched)
       | WriteFile path =>
           Some (Failed (Exn "Error" ("EACCES: permission denied, open '" +:+ path +:+ "'"))
                        Untouched)
       end).

(** No snapshot file yet, and the store once Alice is registered. *)
Definition fresh : world := World (Some "s3cret") None ∅.
Definition with_alice : world :=
  World (Some "s3cret")
        (Some (Stringified (JObj [("certificates", JArr [alice_record])])))
        (<["0123456789abcdef.pdf" := X]> ∅).

(** A snapshot file whose [certificates] is a number. *)
Definition not_a_sequence : world :=
  World (Some "s3cret")
        (Some (Stringified (JObj [("certificates", JNum 5)]))) ∅.
End Scenario.

(** ** Further inputs: requests, worlds and oracles off the happy path *)
Module Cases.
Import Scenario.

Definition text_part : request :=
  Request (form "s3cret" "Alice" "BSc" "2024-01-01")
          (Some (File (Some X) "text/plain")).

(** The degree is made of spaces, the issue date is not sent at all. *)
Definition blank_degree : request :=
  Request (Some (<["token" := FStr "s3cret"]>
                   (<["studentName" := FStr "Alice"]> (<["degree" := FStr "   "]> ∅))))
          (pdf_part X).

Definition carol : request :=
  Request (form "s3cret" "Carol" "PhD" "2023-03-03") (pdf_part Y).

(** A secret configured with a leading space. *)
Definition padded_secret : world := World (Some " s3cret") None ∅.

(** A snapshot file with a [null] entry in front of Alice's record. *)
Definition null_entry : world :=
  World (Some "s3cret")
        (Some (Stringified (JObj [("certificates", JArr [JNull; alice_record])])))
        ∅.

(** A snapshot file that carries a second property beside [certificates]. *)
Definition versioned : world :=
  World (Some "s3cret")
        (Some (Stringified (JObj [("version", JNum 1); ("certificates", JArr [])])))
        ∅.

(** A disk that fills up while the snapshot file is written: the write
    fails after the file was opened, with one byte in it. *)
Definition store_write_fails : oracle :=
  Oracle "0123456789abcdef" "2024-01-01T00:00:00.000Z"
    (fun ev =>
       if bool_decide (ev = WriteFile DATA_FILE) then
         Some (Failed (Exn "Error" "ENOSPC: no space left on device, write")
                      (Truncated (bytes_of_string "{")))
       else None).


(** Requests the handler cannot read: one that is not multipart, so that
    [req.body] is [undefined], and forms whose token, or whose student name,
    was sent under a bracketed name, [token[x]] or [studentName[x]]. *)
Definition not_multipart : request := Request None None.

Definition bracketed_token : request :=
  Request (Some (<["token" := FObj [("x", FStr "s3cret")]]>
                   (<["studentName" := FStr "Alice"]>
                      (<["degree" := FStr "BSc"]>
                         (<["issueDate" := FStr "2024-01-01"]> ∅)))))
          (pdf_part X).

Definition bracketed_name : request :=
  Request (Some (<["token" := FStr "s3cret"]>
                   (<["studentName" := FObj [("x", FStr "Alice")]]>
                      (<["degree" := FStr "  "]>
                         (<["issueDate" := FStr "2024-01-01"]> ∅)))))
          (pdf_part X).

(** A token sent twice: [req.body.token] is the array of the two values. *)
Definition repeated_token : request :=
  Request (Some (<["token" := FArr [Some (FStr "s3"); Some (FStr "cret")]]>
                   (<["studentName" := FStr "Alice"]>
                      (<["degree" := FStr "BSc"]>
                         (<["issueDate" := FStr "2024-01-01"]> ∅)))))
          (pdf_part X).
End Cases.

(** * Properties *)

(** ** The digest reads whole blocks *)

Lemma le_bytes_length n x : length (MD5.le_bytes n x) = n.
Proof. revert x. induction n as [|n IH]; intros x; simpl; [done|by rewrite IH]. Qed.

(** The padded message is a whole number of 64-byte blocks. *)
Lemma pad_length msg : (Z.of_nat (length (MD5.pad msg)) mod 64 = 0)%Z.
Proof.
  unfold MD5.pad.
  rewrite length_app. cbn [length]. rewrite length_app, repeat_length, le_bytes_length.
  set (n := Z.of_nat (length msg)).
  assert (Hm : (0 <= (55 - n) mod 64 < 64)%Z) by (apply Z.mod_pos_bound; lia).
  rewrite Nat2Z.inj_add, Nat2Z.inj_succ, Nat2Z.inj_add, Z2Nat.id by lia.
  fold n. change (Z.of_nat 8) with 8%Z.
  pose proof (Z.div_mod (55 - n) 64 ltac:(lia)) as Hd.
  replace (n + Z.succ ((55 - n) mod 64 + 8))%Z
    with ((1 - (55 - n) / 64) * 64)%Z by lia.
  apply Z.mod_mul. lia.
Qed.

(** The fuel of [chunks] is enough: no element of the list is dropped. *)
Lemma chunks_concat {A} fuel k (l : list A) :
  length l <= fuel -> concat (MD5.chunks fuel (S k) l) = l.
Proof.
  revert l. induction fuel as [|fuel IH]; intros l Hl.
  - destruct l; [done|simpl in Hl; lia].
  - destruct l as [|x l]; [done|].
    cbn [MD5.chunks concat]. rewrite IH.
    + apply firstn_skipn.
    + rewrite length_skipn. simpl in *. lia.
Qed.

(** ** Trimming *)

Lemma append_cons c (a b : string) : String c a +:+ b = String c (a +:+ b).
Proof. reflexivity. Qed.

Lemma append_nil (b : string) : "" +:+ b = b.
Proof. reflexivity. Qed.

Lemma trimStart_split s :
  exists l, s = l +:+ trimStart s /\ all_white l = true.
Proof.
  induction s as [|c s [l [Hs Hl]]]; [by exists ""|].
  simpl. destruct (is_white_space c) eqn:Hc.
  - exists (String c l). split; [rewrite append_cons; congruence|].
    simpl. by rewrite Hc, Hl.
  - by exists "".
Qed.

Lemma trimStart_starts s : starts_white (trimStart s) = false.
Proof.
  induction s as [|c s IH]; [done|].
  simpl. destruct (is_white_space c) eqn:Hc; [done|]. by simpl.
Qed.

Lemma trimEnd_split s :
  exists r, s = trimEnd s +:+ r /\ all_white r = true.
Proof.
  induction s as [|c s [r [Hs Hr]]]; [by exists ""|].
  simpl. destruct (trimEnd s) as [|c' t] eqn:Ht.
  - destruct (is_white_space c) eqn:Hc.
    + exists (String c r). rewrite append_nil in *. split; [congruence|].
      simpl. by rewrite Hc, Hr.
    + exists r. rewrite append_cons, append_nil in *. split; [congruence|done].
  - exists r. rewrite !append_cons in *. split; [congruence|done].
Qed.

Lemma trimEnd_ends s : ends_white (trimEnd s) = false.
Proof.
  induction s as [|c s IH]; [done|].
  simpl. destruct (trimEnd s) as [|c' t] eqn:Ht.
  - destruct (is_white_space c) eqn:Hc; [done|]. by simpl.
  - by simpl in *.
Qed.

Lemma trimEnd_starts s : starts_white s = false -> starts_white (trimEnd s) = false.
Proof.
  destruct s as [|c s]; [done|].
  simpl. intros Hc. destruct (trimEnd s); [by rewrite Hc|done].
Qed.

Lemma append_assoc (a b c : string) : (a +:+ b) +:+ c = a +:+ (b +:+ c).
Proof. induction a as [|x a IH]; [done|]. rewrite !append_cons. by rewrite IH. Qed.

Lemma trim_stripped s : stripped s (trim s).
Proof.
  unfold stripped, trim.
  destruct (trimStart_split s) as [l [Hl Hwl]].
  destruct (trimEnd_split (trimStart s)) as [r [Hr Hwr]].
  exists l, r. repeat split; auto.
  - by rewrite <- Hr.
  - apply trimEnd_starts, trimStart_starts.
  - apply trimEnd_ends.
Qed.

(** A string that carries no white space at either end is left alone. *)
Lemma trimEnd_id s : ends_white s = false -> trimEnd s = s.
Proof.
  induction s as [|c s IH]; [done|].
  simpl. destruct s as [|c' s'].
  - simpl. by intros ->.
  - intros H. rewrite (IH H). done.
Qed.

Lemma trim_id s : starts_white s = false -> ends_white s = false -> trim s = s.
Proof.
  intros Hs He. unfold trim.
  destruct s as [|c s]; [done|].
  simpl in Hs. simpl trimStart. rewrite Hs. by apply trimEnd_id.
Qed.

(** ** The store as the handlers read it *)

Lemma readDb_loadAll o w : readDb o w = (Ok (loadAll w), w, []).
Proof.
  unfold readDb, try_catch, loadAll, fs_readFile_data, mbind, M_bind, lift, mret, M_ret.
  destruct (data_file w) as [[raw|v]|]; simpl; try reflexivity.
  destruct (get v "certificates"); reflexivity.
Qed.

Lemma same_md5_true md5 c : same_md5 md5 c = Ok true <-> digest_of c = Some md5.
Proof.
  unfold same_md5, digest_of.
  destruct c as [| | | | |props]; simpl; try (split; discriminate).
  destruct (assoc "md5" props) as [[| | |s| |]|]; simpl; try (split; discriminate).
  unfold mret, result_ret.
  destruct (String.eqb_spec s md5); split; congruence.
Qed.

Lemma same_md5_object md5 c : same_md5 md5 c = Ok true -> truthy (Some c) = true.
Proof.
  by destruct c.
Qed.

Lemma same_md5_not_null md5 c : c <> JNull -> exists b, same_md5 md5 c = Ok b.
Proof. unfold same_md5. destruct c; try done; cbn; eauto. Qed.

Lemma Array_find_None p items :
  Array_find p items = Ok None <-> Forall (fun c => p c = Ok false) items.
Proof.
  induction items as [|c items IH]; simpl.
  - split; [constructor|done].
  - destruct (p c) as [[]|] eqn:Hp.
    + split; [done|]. inversion 1; congruence.
    + rewrite IH. split; [by constructor|]. by inversion 1.
    + split; [done|]. inversion 1; congruence.
Qed.

Lemma Array_find_Some p items c :
  Array_find p items = Ok (Some c) ->
  exists before after,
    items = before ++ c :: after /\ p c = Ok true
    /\ Forall (fun x => p x = Ok false) before.
Proof.
  induction items as [|x items IH]; simpl; [done|].
  destruct (p x) as [[]|] eqn:Hp; [| |done].
  - intros [= ->]. by exists [], items.
  - intros H. destruct (IH H) as (b & a & -> & Hc & Hb).
    exists (x :: b), a. repeat split; [done|by constructor].
Qed.

Lemma certificates_find_array d md5 v :
  certificates_find d md5 = Ok v -> certificates d = JArr (records d).
Proof.
  unfold certificates_find, records. by destruct (certificates d).
Qed.

Lemma certificates_find_truthy d md5 c :
  certificates_find d md5 = Ok (Some c) -> truthy (Some c) = true.
Proof.
  unfold certificates_find. destruct (certificates d); try done.
  intros H. apply Array_find_Some in H as (_ & _ & _ & H & _).
  by apply same_md5_object in H.
Qed.

Lemma certificates_find_digest d md5 c :
  certificates_find d md5 = Ok (Some c) -> digest_of c = Some md5.
Proof.
  unfold certificates_find. destruct (certificates d); try done.
  intros H. apply Array_find_Some in H as (_ & _ & _ & H & _).
  by apply same_md5_true.
Qed.

(** ** Every request ends in one of the listed outcomes *)

Lemma bind_run {A B} (m : M A) (f : A -> M B) o w :
  (m ≫= f) o w =
  match m o w with
  | (Ok a, w1, t1) => let '(r, w2, t2) := f a o w1 in (r, w2, t1 ++ t2)
  | (Throw e, w1, t1) => (Throw e, w1, t1)
  end.
Proof. reflexivity. Qed.

Lemma syscall_run ev f cut o w :
  syscall ev f cut o w =
  match fault o ev with
  | Some (Failed e Untouched) => (Throw e, w, [])
  | Some (Failed e (Truncated kept)) => (Throw e, cut kept w, [])
  | None => (Ok tt, f w, [ev])
  end.
Proof. reflexivity. Qed.

Lemma ret_run {A} (a : A) o w : (mret a : M A) o w = (Ok a, w, []).
Proof. reflexivity. Qed.

Lemma lift_run {A} (r : result A) o w : lift r o w = (r, w, []).
Proof. reflexivity. Qed.

Lemma field_value_Ok req name s : field req name = Ok s -> field_value req name = s.
Proof. unfold field_value. by intros ->. Qed.

Lemma field_value_trim req name :
  field_value req name = trim (submitted_text req name).
Proof.
  unfold field_value, field, submitted_text.
  by destruct (submitted req name).
Qed.

Lemma field_submitted req name s :
  field req name = Ok s <-> exists raw, submitted req name = Ok raw /\ s = trim raw.
Proof.
  unfold field. destruct (submitted req name) as [raw|e]; cbn.
  - split; [intros [= <-]; eauto|intros (? & [= <-] & ->); done].
  - split; [done|intros (? & ? & _); done].
Qed.

Lemma university_upload_outcome req o w :
  upload_outcome req o w (university_upload req o w).
Proof.
  unfold university_upload, respond, university_upload_try.
  rewrite bind_run, lift_run.
  destruct (field req "token") as [token|e] eqn:Htok; cycle 1.
  { by apply Up_token_unreadable. }
  rewrite bind_run. cbn [process_env_ADMIN_TOKEN].
  destruct (bool_decide_reflect (token = "")) as [Ht|Ht]; simpl.
  { apply (Up_unauthorized req o w token); [done|].
    intros (t & Ht' & Hne & _). congruence. }
  destruct (bool_decide_reflect (Some token = ADMIN_TOKEN w))
    as [Hs|Hs]; simpl; cycle 1.
  { apply (Up_unauthorized req o w token); [done|].
    intros (t & Ht' & _ & Hs'). congruence. }
  assert (Ha : authorized w req) by (by exists token).
  destruct (req_file req) as [f|] eqn:Hf; cycle 1.
  { apply Up_no_file; [done|by left]. }
  destruct (buffer f) as [buf|] eqn:Hb; cycle 1.
  { apply Up_no_file; [done|right; eauto]. }
  destruct (bool_decide_reflect (mimetype f = "application/pdf")) as [Hm|Hm];
    simpl; cycle 1.
  { eapply Up_not_pdf; eauto. }
  assert (Hp : pdf req buf) by (by exists f).
  rewrite bind_run, lift_run.
  destruct (field req "studentName") as [n|e] eqn:Hn; cycle 1.
  { apply (Up_fields_unreadable req o w buf e); [done..|].
    unfold metadata. by rewrite Hn. }
  rewrite bind_run, lift_run.
  destruct (field req "degree") as [d|e] eqn:Hd; cycle 1.
  { apply (Up_fields_unreadable req o w buf e); [done..|].
    unfold metadata. by rewrite Hn, Hd. }
  rewrite bind_run, lift_run.
  destruct (field req "issueDate") as [i|e] eqn:Hi; cycle 1.
  { apply (Up_fields_unreadable req o w buf e); [done..|].
    unfold metadata. by rewrite Hn, Hd, Hi. }
  assert (Hmeta : metadata req = Ok (n, d, i)).
  { unfold metadata. by rewrite Hn, Hd, Hi. }
  destruct (bool_decide_reflect (n = "")) as [Hne|Hne]; simpl.
  { apply (Up_missing_fields req o w buf n d i); auto. }
  destruct (bool_decide_reflect (d = "")) as [Hde|Hde]; simpl.
  { apply (Up_missing_fields req o w buf n d i); auto. }
  destruct (bool_decide_reflect (i = "")) as [Hie|Hie]; simpl.
  { apply (Up_missing_fields req o w buf n d i); auto. }
  assert (Hok : accepted w req buf).
  { split; [done|]. split; [done|]. by exists n, d, i. }
  rewrite <- (field_value_Ok _ _ _ Hn), <- (field_value_Ok _ _ _ Hd),
    <- (field_value_Ok _ _ _ Hi).
  rewrite bind_run. cbn [crypto_randomBytes_hex].
  rewrite bind_run. unfold fs_mkdir at 1. rewrite syscall_run.
  destruct (fault o (Mkdir UPLOADS_DIR)) as [[e [|kept]]|] eqn:F1.
  { eapply Up_mkdir_uploads_fails; eauto. }
  { eapply Up_mkdir_uploads_fails; eauto. }
  rewrite bind_run. unfold fs_writeFile_upload. rewrite syscall_run.
  fold (filename_of o).
  destruct (fault o (WriteFile (path_join UPLOADS_DIR (filename_of o))))
    as [[e [|kept]]|] eqn:F2.
  { by apply (Up_archive_fails req o w buf e Untouched). }
  { by apply (Up_archive_fails req o w buf e (Truncated kept)). }
  change (World (ADMIN_TOKEN (id w)) (data_file (id w))
                (<[filename_of o := buf]> (uploads (id w))))
    with (archived o buf w).
  rewrite bind_run, readDb_loadAll, bind_run, lift_run.
  change (loadAll (archived o buf w)) with (loadAll w).
  fold (findByDigest w (md5Buffer buf)).
  destruct (findByDigest w (md5Buffer buf)) as [[c|]|e] eqn:Hfind; cycle 2.
  { eapply Up_find_throws; eauto. }
  { rewrite (certificates_find_truthy _ _ _ Hfind). simpl.
    eapply Up_duplicate; eauto. }
  cbn [truthy]. rewrite bind_run. cbn [Date_toISOString].
  rewrite bind_run, lift_run.
  unfold certificates_unshift.
  rewrite (certificates_find_array _ _ _ Hfind).
  fold (record_of req o buf).
  rewrite bind_run. unfold writeDb. rewrite bind_run.
  unfold fs_mkdir at 1. rewrite syscall_run.
  destruct (fault o (Mkdir DATA_DIR)) as [[e [|kept]]|] eqn:F3.
  { eapply Up_mkdir_data_fails; eauto. }
  { eapply Up_mkdir_data_fails; eauto. }
  unfold fs_writeFile_data. rewrite syscall_run.
  destruct (fault o (WriteFile DATA_FILE)) as [[e [|kept]]|] eqn:F4.
  { by apply (Up_store_fails req o w buf e Untouched). }
  { by apply (Up_store_fails req o w buf e (Truncated kept)). }
  by apply (Up_created req o w buf).
Qed.

Lemma certificates_find_object d md5 c :
  certificates_find d md5 = Ok (Some c) -> exists props, c = JObj props.
Proof.
  intros H. apply certificates_find_digest in H.
  destruct c; try done. eauto.
Qed.

Lemma verify_outcome_holds req o w : verify_outcome req o w (verify req o w).
Proof.
  unfold verify, respond, verify_try.
  destruct (req_file req) as [f|] eqn:Hf; cycle 1.
  { apply V_no_file. by left. }
  destruct (buffer f) as [buf|] eqn:Hb; cycle 1.
  { apply V_no_file. right; eauto. }
  destruct (bool_decide_reflect (mimetype f = "application/pdf")) as [Hm|Hm];
    simpl; cycle 1.
  { eapply V_not_pdf; eauto. }
  assert (Hp : pdf req buf) by (by exists f).
  rewrite bind_run, readDb_loadAll, bind_run, lift_run.
  fold (findByDigest w (md5Buffer buf)).
  destruct (findByDigest w (md5Buffer buf)) as [[c|]|e] eqn:Hfind.
  - rewrite (certificates_find_truthy _ _ _ Hfind).
    destruct (certificates_find_object _ _ _ Hfind) as [props ->].
    by apply (V_match req o w buf (JObj props)).
  - by apply (V_no_match req o w buf).
  - by apply (V_find_throws req o w buf).
Qed.

Lemma pdf_inj req buf buf' : pdf req buf -> pdf req buf' -> buf = buf'.
Proof. intros (f & ? & ? & _) (f' & ? & ? & _). congruence. Qed.

Lemma pdf_no_file req buf : pdf req buf -> ~ no_file req.
Proof.
  intros (f & Hf & Hb & _) [H|(f' & Hf' & Hb')]; congruence.
Qed.

(** ** Frame lemmas *)
Lemma loadAll_archived o buf w : loadAll (archived o buf w) = loadAll w.
Proof. reflexivity. Qed.

Lemma loadAll_rewritten items w : loadAll (rewritten items w) = Db (JArr items).
Proof. reflexivity. Qed.

(** [readDb] never raises and touches nothing. *)
Lemma readDb_total o w : exists d, readDb o w = (Ok d, w, []).
Proof. exists (loadAll w). apply readDb_loadAll. Qed.

(** The store falls back to the empty sequence when the file is missing,
    is not JSON, parses to [null], or has no truthy [certificates]. *)
Lemma loadAll_fallback w :
  match data_file w with
  | None | Some (Malformed _) | Some (Stringified JNull) => True
  | Some (Stringified v) => truthy (prop v "certificates") = false
  end ->
  loadAll w = Db (JArr []).
Proof.
  unfold loadAll. destruct (data_file w) as [[raw|v]|]; try done.
  destruct v as [| | | | |props]; try done.
  simpl. unfold or_else. destruct (assoc "certificates" props) as [c|]; [|done].
  by intros ->.
Qed.

(** A registration either leaves the snapshot file alone, or rewrites it with
    the new record in front, or, when the rewrite fails after the file was
    opened, leaves it cut short, read back as the empty sequence; the last
    two only for a digest the scan did not find. *)
Lemma upload_store req o w :
  let w' := (university_upload req o w).1.2 in
  data_file w' = data_file w
  \/ (exists buf,
        pdf req buf /\ findByDigest w (md5Buffer buf) = Ok None
        /\ loadAll w' = Db (JArr (record_of req o buf :: records (loadAll w))))
  \/ (exists buf e kept,
        pdf req buf /\ findByDigest w (md5Buffer buf) = Ok None
        /\ fault o (WriteFile DATA_FILE) = Some (Failed e (Truncated kept))
        /\ loadAll w' = Db (JArr [])).
Proof.
  pose proof (university_upload_outcome req o w) as H.
  destruct (university_upload req o w) as [[r w'] t]. simpl.
  inversion H; subst; try (by left);
    match goal with Hacc : accepted _ _ _ |- _ => destruct Hacc as (_ & ? & _) end.
  - left. by destruct d.
  - destruct d as [|kept]; [by left|]. right; right. by exists buf, e, kept.
  - right; left. by exists buf.
Qed.

Lemma loadAll_data_file w w' : data_file w' = data_file w -> loadAll w' = loadAll w.
Proof. unfold loadAll. by intros ->. Qed.

(** A request answered 400 or 401 has changed nothing. *)
Lemma caller_error_no_effect rt req o w :
  let '(r, w', t) := handler rt req o w in
  status r = 400 \/ status r = 401 -> w' = w /\ t = [].
Proof.
  destruct rt.
  - change (handler POST_university_upload req o w)
      with (university_upload req o w).
    pose proof (university_upload_outcome req o w) as H.
    destruct (university_upload req o w) as [[r w'] t].
    inversion H; subst; cbn; intros [?|?]; done.
  - change (handler POST_verify req o w) with (verify req o w).
    pose proof (verify_outcome_holds req o w) as H.
    destruct (verify req o w) as [[r w'] t].
    inversion H; subst; cbn; intros [?|?]; done.
Qed.

(** ** The two ways an accepted registration succeeds *)

Ltac unpack :=
  repeat match goal with
  | H : accepted _ _ _ |- _ => destruct H as (? & ? & ?)
  | H1 : pdf ?r ?b1, H2 : pdf ?r ?b2 |- _ =>
      lazymatch b1 with
      | b2 => clear H2
      | _ => pose proof (pdf_inj r b1 b2 H1 H2); subst b2
      end
  end.

Ltac impossible :=
  unpack;
  solve [ done | congruence
        | match goal with
          | H1 : pdf ?r ?b, H2 : no_file ?r |- _ =>
              destruct (pdf_no_file r b H1 H2)
          | H : pdf _ _ |- _ => destruct H as (? & ? & ? & ?); congruence
          | H : no_file _ |- _ => destruct H as [?|(? & ? & ?)]; congruence
          end
        | match goal with
          | H1 : authorized _ ?r, H2 : field ?r "token" = Throw _ |- _ =>
              destruct H1 as (? & ? & _); congruence
          | H1 : fields_present ?r, H2 : metadata ?r = Throw _ |- _ =>
              destruct H1 as (? & ? & ? & ? & _); congruence
          | H1 : fields_present ?r, H2 : metadata ?r = Ok _, H3 : _ \/ _ |- _ =>
              destruct H1 as (? & ? & ? & ? & ? & ? & ?);
              destruct H3 as [?|[?|?]]; congruence
          end ].

Lemma upload_duplicate req o w buf c :
  accepted w req buf ->
  findByDigest w (md5Buffer buf) = Ok (Some c) ->
  fault o (Mkdir UPLOADS_DIR) = None ->
  fault o (WriteFile (path_join UPLOADS_DIR (filename_of o))) = None ->
  university_upload req o w
  = (duplicate_response (md5Buffer buf) c, archived o buf w, archive_calls o).
Proof.
  intros Hacc Hfind F1 F2.
  pose proof (university_upload_outcome req o w) as H.
  destruct (university_upload req o w) as [[r w'] t].
  inversion H; subst; impossible.
Qed.

Lemma upload_created req o w buf :
  accepted w req buf ->
  findByDigest w (md5Buffer buf) = Ok None ->
  (forall ev, fault o ev = None) ->
  university_upload req o w
  = (created_response (md5Buffer buf) (record_of req o buf),
     rewritten (record_of req o buf :: records (loadAll w)) (archived o buf w),
     archive_calls o ++ store_calls).
Proof.
  intros Hacc Hfind F.
  pose proof (university_upload_outcome req o w) as H.
  destruct (university_upload req o w) as [[r w'] t].
  inversion H; subst; first [impossible | rewrite F in *; done].
Qed.

(** A verification finds what the scan finds. *)
Lemma verify_match req o w buf c :
  pdf req buf ->
  findByDigest w (md5Buffer buf) = Ok (Some c) ->
  verify req o w = (match_response (md5Buffer buf) c, w, []).
Proof.
  intros Hp Hfind.
  pose proof (verify_outcome_holds req o w) as H.
  destruct (verify req o w) as [[r w'] t].
  inversion H; subst; impossible.
Qed.

Lemma verify_no_match req o w buf :
  pdf req buf ->
  findByDigest w (md5Buffer buf) = Ok None ->
  verify req o w = (no_match (md5Buffer buf), w, []).
Proof.
  intros Hp Hfind.
  pose proof (verify_outcome_holds req o w) as H.
  destruct (verify req o w) as [[r w'] t].
  inversion H; subst; impossible.
Qed.

(** The scan of a store with a new record in front. *)
Lemma find_new_record req o buf items :
  certificates_find (Db (JArr (record_of req o buf :: items))) (md5Buffer buf)
  = Ok (Some (record_of req o buf)).
Proof.
  unfold record_of. generalize (md5Buffer buf); intros m.
  unfold certificates_find. simpl. by rewrite String.eqb_refl.
Qed.


(** ** Tactics for concrete inputs, and the scenario replayed *)

Ltac unfold_responses :=
  unfold failure, server_error, duplicate_response, created_response,
    no_match, match_response, res_json, res_status_json in *.

Ltac concrete :=
  vm_compute;
  repeat match goal with
  | |- _ /\ _ => split
  | |- exists _, _ => eexists
  | |- _ <> _ => discriminate
  | |- ~ _ => intro
  | |- _ = _ => reflexivity
  | |- forall _, _ => intro
  | H : _ = _ |- _ => discriminate H
  end.

Example md5_empty : md5Buffer [] = "d41d8cd98f00b204e9800998ecf8427e".
Proof. by vm_compute. Qed.

Example md5_abc : md5Buffer (bytes_of_string "abc") = "900150983cd24fb0d6963f7d28e17f72".
Proof. by vm_compute. Qed.

Example md5_two_blocks :
  md5Buffer (repeat "a"%byte 64) = "014842d480b571495a4a0363793f7367".
Proof. by vm_compute. Qed.

Example register_alice :
  university_upload Scenario.alice Scenario.o1 Scenario.fresh
  = (created_response "914240125319291c7cb7e712e419b254" Scenario.alice_record,
     Scenario.with_alice,
     [Mkdir "uploads"; WriteFile "uploads/0123456789abcdef.pdf";
      Mkdir "data"; WriteFile "data/certificates.json"]).
Proof. by vm_compute. Qed.

Example verify_X_then_Y :
  response_prop (verify (Request (Some ∅) (Scenario.pdf_part Scenario.X))
                        Scenario.o2 Scenario.with_alice).1.1 "valid"
  = Some (JBool true)
  /\ certificate_prop (verify (Request (Some ∅) (Scenario.pdf_part Scenario.X))
                              Scenario.o2 Scenario.with_alice).1.1 "studentName"
     = Some (JStr "Alice")
  /\ response_prop (verify (Request (Some ∅) (Scenario.pdf_part Scenario.Y))
                           Scenario.o2 Scenario.with_alice).1.1 "valid"
     = Some (JBool false).
Proof. by vm_compute. Qed.

(** A request that is not multipart has no body: the first line of the
    registration handler raises, and the [catch] clause answers.  The
    verification handler never reads the body. *)
Example no_body_registration :
  university_upload Cases.not_multipart Scenario.o1 Scenario.fresh
  = (server_error
       (TypeError "Cannot read properties of undefined (reading 'token')"),
     Scenario.fresh, [])
  /\ verify Cases.not_multipart Scenario.o1 Scenario.fresh
     = (failure 400 "PDF file is required", Scenario.fresh, []).
Proof. by vm_compute. Qed.

(** A field sent under a bracketed name is an object without [toString]:
    reading it raises, for the token before the token check and for the
    student name before the check for missing fields (the degree is blank
    here). *)
Example bracketed_fields :
  university_upload Cases.bracketed_token Scenario.o1 Scenario.fresh
  = (server_error
       (TypeError ("(req.body.token || " +:+ empty_literal
                   +:+ ").toString is not a function")),
     Scenario.fresh, [])
  /\ blank Cases.bracketed_name "degree"
  /\ university_upload Cases.bracketed_name Scenario.o1 Scenario.fresh
     = (server_error
          (TypeError ("(req.body.studentName || " +:+ empty_literal
                      +:+ ").toString is not a function")),
        Scenario.fresh, []).
Proof.
  split; [by vm_compute|]. split; [|by vm_compute].
  exists "  ". by vm_compute.
Qed.

(** A field sent twice is an array, read as its values joined by commas. *)
Example repeated_token_joined :
  submitted Cases.repeated_token "token" = Ok "s3,cret"
  /\ university_upload Cases.repeated_token Scenario.o1 Scenario.fresh
     = (failure 401 "Unauthorized (token)", Scenario.fresh, []).
Proof. by vm_compute. Qed.

(** A snapshot write that fails after the file was opened leaves the file
    cut short; it is read back as the empty sequence. *)
Example store_cut_short :
  let '(r, w', t) :=
    university_upload Cases.carol Cases.store_write_fails Scenario.with_alice in
  r = server_error (Exn "Error" "ENOSPC: no space left on device, write")
  /\ t = [Mkdir "uploads"; WriteFile "uploads/0123456789abcdef.pdf"; Mkdir "data"]
  /\ data_file w' = Some (Malformed "{")
  /\ records (loadAll Scenario.with_alice) = [Scenario.alice_record]
  /\ records (loadAll w') = []
  /\ response_prop (verify (Request None (Scenario.pdf_part Scenario.X))
                           Scenario.o2 w').1.1 "valid"
     = Some (JBool false).
Proof. by vm_compute. Qed.

(** * The claims *)

(** ** C1: registering then verifying *)

(** C1, as stated, fails twice over.  Registering [X] for Bob when [X] is
    already registered for Alice is accepted, and verifying [X] afterwards
    answers with Alice's name, not the one supplied; and on a fresh store
    the name supplied as ["  Alice "] comes back as ["Alice"]. *)
Lemma roundtrip_supplied_metadata_counterexample :
  (accepted Scenario.with_alice Scenario.bob Scenario.X
   /\ Scenario.X <> []
   /\ sent Scenario.bob "studentName" = Some (FStr "Bob")
   /\ let w1 := (university_upload Scenario.bob Scenario.o2 Scenario.with_alice).1.2 in
      let r := (verify Scenario.bob Scenario.o2 w1).1.1 in
      response_prop r "valid" = Some (JBool true)
      /\ certificate_prop r "studentName" = Some (JStr "Alice")
      /\ certificate_prop r "studentName" <> Some (JStr "Bob"))
  /\
  (accepted Scenario.fresh Scenario.padded_name Scenario.X
   /\ sent Scenario.padded_name "studentName" = Some (FStr "  Alice ")
   /\ let w1 :=
        (university_upload Scenario.padded_name Scenario.o1 Scenario.fresh).1.2 in
      let r := (verify Scenario.padded_name Scenario.o2 w1).1.1 in
      response_prop r "valid" = Some (JBool true)
      /\ certificate_prop r "studentName" = Some (JStr "Alice")
      /\ certificate_prop r "studentName" <> Some (JStr "  Alice ")).
Proof. concrete. Qed.

(** C1 (amended): when the digest of the uploaded bytes is not yet in the
    store and no file-system call fails, registering the bytes and then
    verifying the same bytes answers [valid: true] with the trimmed
    [studentName], [degree] and [issueDate] of the registration request (and
    the creation time of the record). *)
Theorem roundtrip_fresh_digest req req' o o' w buf :
  accepted w req buf ->
  findByDigest w (md5Buffer buf) = Ok None ->
  (forall ev, fault o ev = None) ->
  pdf req' buf ->
  let w1 := (university_upload req o w).1.2 in
  (verify req' o' w1).1.1
  = res_json (JObj
      [("ok", JBool true); ("valid", JBool true); ("md5", JStr (md5Buffer buf));
       ("certificate", JObj
          [("studentName", JStr (trim (submitted_text req "studentName")));
           ("degree", JStr (trim (submitted_text req "degree")));
           ("issueDate", JStr (trim (submitted_text req "issueDate")));
           ("createdAt", JStr (now_iso o))])]).
Proof.
  intros Hacc Hfind F Hp.
  rewrite (upload_created req o w buf Hacc Hfind F). cbn [fst snd].
  rewrite (verify_match req' o' _ buf (record_of req o buf) Hp).
  - unfold record_of. by rewrite !field_value_trim.
  - unfold findByDigest. rewrite loadAll_rewritten. apply find_new_record.
Qed.

Lemma roundtrip_fresh_digest_witness :
  (verify Scenario.alice Scenario.o2
          (university_upload Scenario.alice Scenario.o1 Scenario.fresh).1.2).1.1
  = res_json (JObj
      [("ok", JBool true); ("valid", JBool true);
       ("md5", JStr "914240125319291c7cb7e712e419b254");
       ("certificate", JObj
          [("studentName", JStr "Alice"); ("degree", JStr "BSc");
           ("issueDate", JStr "2024-01-01");
           ("createdAt", JStr "2024-01-01T00:00:00.000Z")])]).
Proof.
  apply (roundtrip_fresh_digest Scenario.alice Scenario.alice Scenario.o1
           Scenario.o2 Scenario.fresh Scenario.X); concrete.
Defined.

(** ** C2: registering the same bytes again *)





(** ** C3: the writes of a registration *)

(** C3, as stated, fails on the duplicate path: the upload is archived
    before the store is read, so registering [X] again writes one more blob
    (and only the store is left alone). *)
Lemma duplicate_path_blob_write_counterexample :
  let '(r, w', t) :=
    university_upload Scenario.bob Scenario.o2 Scenario.with_alice in
  r = duplicate_response "914240125319291c7cb7e712e419b254" Scenario.alice_record
  /\ t = [Mkdir "uploads"; WriteFile "uploads/fedcba9876543210.pdf"]
  /\ blob_writes t = 1 /\ blob_writes t <> 0
  /\ uploads Scenario.with_alice !! "fedcba9876543210.pdf" = None
  /\ uploads w' !! "fedcba9876543210.pdf" = Some Scenario.X.
Proof. concrete. Qed.

Lemma is_blob_write_upload name :
  is_blob_write (WriteFile (path_join UPLOADS_DIR name)) = true.
Proof. by destruct name. Qed.

Lemma is_store_write_upload name :
  is_store_write (WriteFile (path_join UPLOADS_DIR name)) = false.
Proof. apply bool_decide_eq_false. intros [= H]. Qed.

Lemma archive_calls_writes o :
  blob_writes (archive_calls o) = 1 /\ store_writes (archive_calls o) = 0.
Proof.
  unfold blob_writes, store_writes, archive_calls. cbn [List.filter].
  by rewrite is_blob_write_upload, is_store_write_upload.
Qed.

Lemma store_calls_writes :
  blob_writes store_calls = 0 /\ store_writes store_calls = 1.
Proof. by vm_compute. Qed.

Lemma blob_writes_app t1 t2 : blob_writes (t1 ++ t2) = blob_writes t1 + blob_writes t2.
Proof. unfold blob_writes. by rewrite List.filter_app, length_app. Qed.

Lemma store_writes_app t1 t2 : store_writes (t1 ++ t2) = store_writes t1 + store_writes t2.
Proof. unfold store_writes. by rewrite List.filter_app, length_app. Qed.

(** C3 (amended): an accepted registration whose file-system calls all
    succeed writes exactly one blob, on the duplicate path as well, and
    rewrites the store exactly once when the digest is new and not at all
    when it is already stored. *)
Theorem registration_writes req o w buf v :
  accepted w req buf ->
  (forall ev, fault o ev = None) ->
  findByDigest w (md5Buffer buf) = Ok v ->
  let t := (university_upload req o w).2 in
  blob_writes t = 1
  /\ store_writes t = match v with Some _ => 0 | None => 1 end.
Proof.
  intros Hacc F Hfind. destruct v as [c|].
  - rewrite (upload_duplicate req o w buf c Hacc Hfind (F _) (F _)).
    apply archive_calls_writes.
  - rewrite (upload_created req o w buf Hacc Hfind F). cbn [snd].
    rewrite blob_writes_app, store_writes_app.
    destruct (archive_calls_writes o) as [-> ->].
    by destruct store_calls_writes as [-> ->].
Qed.

Lemma registration_writes_witness :
  let t := (university_upload Scenario.bob Scenario.o2 Scenario.with_alice).2 in
  blob_writes t = 1 /\ store_writes t = 0.
Proof.
  apply (registration_writes Scenario.bob Scenario.o2 Scenario.with_alice
           Scenario.X (Some Scenario.alice_record)); concrete.
Defined.

(** ** C4: internal errors *)

(** C4, as stated, fails: the [catch] clause of both handlers puts the text
    of the exception in the [error] property of the response. *)
Lemma server_error_exception_text_counterexample :
  (university_upload_try Scenario.alice Scenario.read_only_disk Scenario.fresh).1.1
  = Throw (Exn "Error" "EACCES: permission denied, mkdir 'uploads'")
  /\ response_prop
       (university_upload Scenario.alice Scenario.read_only_disk Scenario.fresh).1.1
       "error"
     = Some (JStr "Error: EACCES: permission denied, mkdir 'uploads'")
  /\ (verify_try Scenario.alice Scenario.o1 Scenario.not_a_sequence).1.1
     = Throw (TypeError "db.certificates.find is not a function")
  /\ response_prop (verify Scenario.alice Scenario.o1 Scenario.not_a_sequence).1.1
       "error"
     = Some (JStr "TypeError: db.certificates.find is not a function").
Proof. concrete. Qed.

(** C4 (amended): when the [try] block of a route raises [e], the response
    has status 500, [ok: false], the fixed message ["Server error"], and an
    [error] property holding [String(e)]; the world and the system calls are
    those made before the exception. *)
Theorem internal_error_reported rt req o w e w' t :
  handler_try rt req o w = (Throw e, w', t) ->
  handler rt req o w
  = (res_status_json 500
       (JObj [("ok", JBool false); ("message", JStr "Server error");
              ("error", JStr (String_of_exn e))]),
     w', t).
Proof. intros H. unfold handler, respond. by rewrite H. Qed.

Lemma internal_error_reported_witness :
  handler POST_university_upload Scenario.alice Scenario.read_only_disk Scenario.fresh
  = (res_status_json 500
       (JObj [("ok", JBool false); ("message", JStr "Server error");
              ("error", JStr "Error: EACCES: permission denied, mkdir 'uploads'")]),
     Scenario.fresh, []).
Proof.
  apply (internal_error_reported POST_university_upload Scenario.alice
           Scenario.read_only_disk Scenario.fresh
           (Exn "Error" "EACCES: permission denied, mkdir 'uploads'")).
  by vm_compute.
Defined.

(** ** C5: the uploaded file *)

(** C5, as stated, fails for an upload of zero length: the buffer is there,
    so verification goes on to hash it, and registration creates a record
    for it. *)
Lemma empty_upload_counterexample :
  (req_file Scenario.empty_pdf ≫= buffer) = Some []
  /\ verify Scenario.empty_pdf Scenario.o1 Scenario.fresh
     = (no_match "d41d8cd98f00b204e9800998ecf8427e", Scenario.fresh, [])
  /\ (university_upload Scenario.empty_pdf Scenario.o1 Scenario.fresh).1.1
     <> failure 400 "PDF file is required"
  /\ response_prop
       (university_upload Scenario.empty_pdf Scenario.o1 Scenario.fresh).1.1 "md5"
     = Some (JStr "d41d8cd98f00b204e9800998ecf8427e")
  /\ status (university_upload Scenario.empty_pdf Scenario.o1 Scenario.fresh).1.1
     = 200.
Proof. concrete. Qed.

(** C5 (amended): a request that reaches the file check is answered with
    status 400 and "PDF file is required", without any effect, exactly when
    the upload is absent ([req.file] or its buffer is missing); a buffer that
    is present passes the check whatever its length. *)
Theorem missing_file_iff_absent rt req o w :
  reaches_file_check rt w req ->
  handler rt req o w = (failure 400 "PDF file is required", w, [])
  <-> no_file req.
Proof.
  intros Hreach. destruct rt; cbn [reaches_file_check] in Hreach.
  - change (handler POST_university_upload req o w)
      with (university_upload req o w).
    pose proof (university_upload_outcome req o w) as H.
    destruct (university_upload req o w) as [[r w'] t].
    inversion H; subst; unfold_responses;
      (split; [intros [= ]|intros Hno]); first [done | impossible].
  - change (handler POST_verify req o w) with (verify req o w).
    pose proof (verify_outcome_holds req o w) as H.
    destruct (verify req o w) as [[r w'] t].
    inversion H; subst; unfold_responses;
      (split; [intros [= ]|intros Hno]); first [done | impossible].
Qed.

Lemma missing_file_iff_absent_witness :
  handler POST_university_upload
          (Request (Scenario.form "s3cret" "Alice" "BSc" "2024-01-01") None)
          Scenario.o1 Scenario.fresh
  = (failure 400 "PDF file is required", Scenario.fresh, [])
  <-> no_file (Request (Scenario.form "s3cret" "Alice" "BSc" "2024-01-01") None).
Proof.
  apply (missing_file_iff_absent POST_university_upload
           (Request (Scenario.form "s3cret" "Alice" "BSc" "2024-01-01") None)
           Scenario.o1 Scenario.fresh).
  concrete.
Defined.

(** ** C6: the token check *)

(** C6, as stated, fails: the token is trimmed before it is compared, so
    the token [" s3cret "], which is not the secret ["s3cret"], is accepted
    and the registration goes through. *)
Lemma padded_token_counterexample :
  sent Scenario.padded_token "token" = Some (FStr " s3cret ")
  /\ ADMIN_TOKEN Scenario.fresh = Some "s3cret"
  /\ " s3cret " <> "s3cret"
  /\ status (university_upload Scenario.padded_token Scenario.o1 Scenario.fresh).1.1 = 200
  /\ (university_upload Scenario.padded_token Scenario.o1 Scenario.fresh).1.1
     <> failure 401 "Unauthorized (token)"
  /\ (university_upload Scenario.padded_token Scenario.o1 Scenario.fresh).2
     = [Mkdir "uploads"; WriteFile "uploads/0123456789abcdef.pdf";
        Mkdir "data"; WriteFile "data/certificates.json"].
Proof. concrete. Qed.

Lemma field_of_submitted req name :
  field req name
  = match submitted req name with
    | Ok raw => Ok (trim raw)
    | Throw e => Throw e
    end.
Proof. unfold field. by destruct (submitted req name). Qed.

(** C6 (amended): a registration request whose token can be read as a text
    [raw], the value of [(req.body.token || "").toString()], passes the token
    check if and only if [raw], once trimmed, is non-empty and equals the
    configured secret exactly; every other such request is answered 401
    "Unauthorized (token)" before any other check, with the world unchanged
    and no system call made.  (A request whose token cannot be read, because
    it has no body or because the token was sent under a bracketed name,
    raises on that first line and gets the 500 response of the [catch]
    clause, again with no effect.) *)
Theorem token_check req o w :
  match submitted req "token" with
  | Ok raw =>
      (~ (trim raw <> "" /\ ADMIN_TOKEN w = Some (trim raw))
       /\ university_upload req o w = (failure 401 "Unauthorized (token)", w, []))
      \/
      ((trim raw <> "" /\ ADMIN_TOKEN w = Some (trim raw))
       /\ status (university_upload req o w).1.1 <> 401)
  | Throw e => university_upload req o w = (server_error e, w, [])
  end.
Proof.
  pose proof (field_of_submitted req "token") as Hf.
  pose proof (university_upload_outcome req o w) as H.
  destruct (university_upload req o w) as [[r w'] t].
  destruct (submitted req "token") as [raw|e0].
  - assert (Hauth : authorized w req <->
                    trim raw <> "" /\ ADMIN_TOKEN w = Some (trim raw)).
    { split.
      - intros (token & Ht & Hne & Heq). assert (token = trim raw) by congruence.
        by subst.
      - intros [Hne Heq]. by exists (trim raw). }
    inversion H; subst; first [congruence | left; tauto | idtac];
      right; (split; [unpack; tauto|by cbn]).
  - inversion H; subst; first [congruence | impossible | idtac];
      unpack; impossible.
Qed.

(** ** C7: reading the store *)

(** [readDb] never raises, and answers the empty sequence when the snapshot
    file is missing, is not JSON, or has no truthy [certificates]. *)
Lemma readDb_fallback o w :
  match data_file w with
  | None | Some (Malformed _) | Some (Stringified JNull) => True
  | Some (Stringified v) => truthy (prop v "certificates") = false
  end ->
  readDb o w = (Ok (Db (JArr [])), w, []).
Proof. intros H. by rewrite readDb_loadAll, loadAll_fallback. Qed.

(** C7: the fallback of [readDb] misses one case.  When the snapshot file
    parses to an object whose [certificates] is truthy but not an array
    (here the number 5), [readDb] hands that value back instead of an empty
    sequence, and the scan of the caller raises. *)
Theorem readDb_not_a_sequence :
  readDb Scenario.o1 Scenario.not_a_sequence
  = (Ok (Db (JNum 5)), Scenario.not_a_sequence, [])
  /\ verify Scenario.alice Scenario.o1 Scenario.not_a_sequence
     = (server_error (TypeError "db.certificates.find is not a function"),
        Scenario.not_a_sequence, []).
Proof. by vm_compute. Qed.

(** ** C8: at most one record per digest *)

Lemma find_None_fresh d md5 :
  certificates_find d md5 = Ok None -> md5 ∉ digests (records d).
Proof.
  unfold certificates_find, records, digests.
  destruct (certificates d) as [| | | |items|]; try done.
  rewrite Array_find_None, Forall_forall. intros Hall Hin.
  apply list_elem_of_omap in Hin as (c & Hc & Hd).
  apply same_md5_true in Hd. specialize (Hall c Hc). congruence.
Qed.

Lemma digests_new_record req o buf items :
  digests (record_of req o buf :: items) = md5Buffer buf :: digests items.
Proof. reflexivity. Qed.



(** ** C9: verification is read-only and shows public fields only *)

Ltac in_list := rewrite ?elem_of_cons; repeat first [left; reflexivity | right].

Ltac not_in_list :=
  rewrite ?not_elem_of_cons; repeat split; try discriminate; apply not_elem_of_nil.

Lemma keys_object props k : k ∈ keys (object props) -> k ∈ props.*1.
Proof.
  unfold keys, object.
  induction props as [|[k' [v|]] props IH]; cbn; [done| |].
  - intros [->|Hin]%elem_of_cons; [left|right; auto].
  - right; auto.
Qed.

Lemma exposed_match_response md5 c k :
  k ∈ exposed (match_response md5 c) ->
  k ∈ ["ok"; "valid"; "md5"; "certificate";
       "studentName"; "degree"; "issueDate"; "createdAt"].
Proof.
  unfold exposed, response_prop, match_response.
  remember (object [("studentName", prop c "studentName");
                    ("degree", prop c "degree");
                    ("issueDate", prop c "issueDate");
                    ("createdAt", prop c "createdAt")]) as cert eqn:Hcert.
  cbn. intros Hin.
  repeat (apply elem_of_cons in Hin as [->|Hin]; [in_list|]).
  subst cert. apply keys_object in Hin. cbn in Hin.
  rewrite !elem_of_cons in *. tauto.
Qed.

Lemma find_Some_member d md5 c :
  certificates_find d md5 = Ok (Some c) -> c ∈ records d.
Proof.
  unfold certificates_find, records.
  destruct (certificates d) as [| | | |items|]; try done.
  intros (before & after & -> & _ & _)%Array_find_Some.
  apply elem_of_app. right. left.
Qed.

(** C9: whatever the request, a verification leaves the world as it was
    and makes no system call, and neither [id] nor [storedFile] is a property
    of its response or of the certificate in it.  Its answer is settled by
    the upload and the store: 400 without a buffer or with another type than
    PDF; otherwise, for the digest of the buffer, the no-match response
    ([valid: false] and the digest) when the scan of the store finds no
    record, which means no stored object has that digest; the match response
    ([valid: true], the digest, and a certificate made of the [studentName],
    [degree], [issueDate] and [createdAt] of the record found) when the scan
    finds a record, which is then a stored object with that digest; and the
    500 response of the [catch] clause when the scan raises. *)
Theorem verify_read_only_public req o w :
  let '(r, w', t) := verify req o w in
  w' = w /\ t = []
  /\ ("id" ∉ exposed r) /\ ("storedFile" ∉ exposed r)
  /\ match req_file req with
     | None => r = failure 400 "PDF file is required"
     | Some f =>
         match buffer f with
         | None => r = failure 400 "PDF file is required"
         | Some buf =>
             if bool_decide (mimetype f = "application/pdf") then
               match findByDigest w (md5Buffer buf) with
               | Ok None =>
                   (md5Buffer buf ∉ digests (records (loadAll w)))
                   /\ r = res_json (JObj
                            [("ok", JBool true); ("valid", JBool false);
                             ("md5", JStr (md5Buffer buf));
                             ("message", JStr "No match found")])
               | Ok (Some c) =>
                   (c ∈ records (loadAll w))
                   /\ digest_of c = Some (md5Buffer buf)
                   /\ r = res_json (object
                            [("ok", Some (JBool true)); ("valid", Some (JBool true));
                             ("md5", Some (JStr (md5Buffer buf)));
                             ("certificate", Some (object
                                [("studentName", prop c "studentName");
                                 ("degree", prop c "degree");
                                 ("issueDate", prop c "issueDate");
                                 ("createdAt", prop c "createdAt")]))])
               | Throw e => r = server_error e
               end
             else r = failure 400 "Only PDF is allowed"
         end
     end.
Proof.
  pose proof (verify_outcome_holds req o w) as H.
  destruct (verify req o w) as [[r w'] t].
  assert (Hro : w' = w /\ t = []) by (by inversion H).
  destruct Hro as [-> ->]. split; [done|]. split; [done|].
  assert (Hexp : ("id" ∉ exposed r) /\ ("storedFile" ∉ exposed r)).
  { inversion H; subst.
    1-4: split; cbn; not_in_list.
    split; intros Hin%exposed_match_response;
      rewrite !elem_of_cons, elem_of_nil in Hin; intuition discriminate. }
  destruct Hexp as [Hid Hsf]. split; [done|]. split; [done|].
  destruct (req_file req) as [f|] eqn:Hf; cycle 1.
  { inversion H; subst; first [done | impossible]. }
  destruct (buffer f) as [buf|] eqn:Hb; cycle 1.
  { inversion H; subst; first [done | impossible]. }
  case_bool_decide as Hm; cycle 1.
  { inversion H; subst; first [done | impossible]. }
  assert (Hp : pdf req buf) by (by exists f).
  destruct (findByDigest w (md5Buffer buf)) as [[c|]|e] eqn:Hfind.
  - split; [by eapply find_Some_member|].
    split; [by eapply certificates_find_digest|].
    inversion H; subst; try impossible. unpack.
    match goal with
    | Hx : findByDigest _ _ = Ok (Some ?c0) |- match_response _ ?c0 = _ =>
        rewrite Hfind in Hx; injection Hx as <-
    end.
    reflexivity.
  - split; [by apply find_None_fresh|].
    inversion H; subst; impossible.
  - inversion H; subst; impossible.
Qed.

(** ** C10: the stored metadata is trimmed *)

(** C10: when an accepted registration creates a record, each of
    [studentName], [degree] and [issueDate] is stored as the submitted text
    (the string sent, or for a repeated field the texts sent joined by
    commas) without its leading and trailing white space; that value is the
    one in the certificate of the registration response and in the
    certificate a later verification of the same bytes answers with. *)
Theorem created_record_trimmed req o w buf k raw :
  accepted w req buf ->
  findByDigest w (md5Buffer buf) = Ok None ->
  (forall ev, fault o ev = None) ->
  k ∈ ["studentName"; "degree"; "issueDate"] ->
  submitted req k = Ok raw ->
  let '(r, w', _) := university_upload req o w in
  exists record t,
    records (loadAll w') = record :: records (loadAll w)
    /\ response_prop r "certificate" = Some record
    /\ prop record k = Some (JStr t)
    /\ stripped raw t
    /\ forall req' o',
         pdf req' buf ->
         certificate_prop (verify req' o' w').1.1 k = Some (JStr t).
Proof.
  intros Hacc Hfind F Hk Hraw.
  rewrite (upload_created req o w buf Hacc Hfind F).
  exists (record_of req o buf), (trim raw).
  assert (Hf : field_value req k = trim raw).
  { unfold field_value, field. by rewrite Hraw. }
  split; [done|]. split; [done|].
  assert (Hprop : prop (record_of req o buf) k = Some (JStr (trim raw))).
  { rewrite <- Hf. rewrite !elem_of_cons, elem_of_nil in Hk.
    destruct Hk as [->|[->|[->|[]]]]; reflexivity. }
  split; [done|]. split; [apply trim_stripped|].
  intros req' o' Hp.
  rewrite (verify_match req' o' _ buf (record_of req o buf) Hp).
  - rewrite <- Hprop. rewrite !elem_of_cons, elem_of_nil in Hk.
    destruct Hk as [->|[->|[->|[]]]]; reflexivity.
  - unfold findByDigest. rewrite loadAll_rewritten. apply find_new_record.
Qed.

Lemma created_record_trimmed_witness :
  let '(r, w', _) :=
    university_upload Scenario.padded_name Scenario.o1 Scenario.fresh in
  exists record t,
    records (loadAll w') = record :: records (loadAll Scenario.fresh)
    /\ response_prop r "certificate" = Some record
    /\ prop record "studentName" = Some (JStr t)
    /\ stripped "  Alice " t
    /\ forall req' o',
         pdf req' Scenario.X ->
         certificate_prop (verify req' o' w').1.1 "studentName" = Some (JStr t).
Proof.
  apply (created_record_trimmed Scenario.padded_name Scenario.o1 Scenario.fresh
           Scenario.X "studentName" "  Alice ").
  - concrete.
  - by vm_compute.
  - by vm_compute.
  - in_list.
  - by vm_compute.
Defined.

(** * Further properties of the code *)

(** ** [md5Buffer]: the shape of a digest *)

Lemma le_bytes_range n x : Forall (fun b => 0 <= b < 256)%Z (MD5.le_bytes n x).
Proof.
  revert x. induction n as [|n IH]; intros x; simpl; constructor; [|apply IH].
  apply Z.mod_pos_bound. lia.
Qed.

Lemma hex_digit_is_hex d : (0 <= d < 16)%Z -> is_hex_digit (MD5.hex_digit d) = true.
Proof.
  intros Hd.
  assert (Hcases : In d [0; 1; 2; 3; 4; 5; 6; 7; 8; 9; 10; 11; 12; 13; 14; 15]%Z)
    by (simpl; lia).
  simpl in Hcases.
  repeat (destruct Hcases as [<-|Hcases]; [reflexivity|]). destruct Hcases.
Qed.

Lemma hex_length bs : String.length (MD5.hex bs) = 2 * length bs.
Proof. induction bs as [|b bs IH]; simpl; [done|]. rewrite IH. lia. Qed.

Lemma hex_all_hex bs :
  Forall (fun b => 0 <= b < 256)%Z bs -> all_hex (MD5.hex bs) = true.
Proof.
  induction 1 as [|b bs Hb _ IH]; [done|].
  cbn [MD5.hex all_hex]. rewrite IH, !hex_digit_is_hex; [done|..].
  - apply Z.mod_pos_bound. lia.
  - split; [apply Z.div_pos; lia|apply Z.div_lt_upper_bound; lia].
Qed.

(** X1: whatever the buffer, the empty one included, the digest is a string
    of 32 characters, each a decimal digit or a lower-case letter from [a] to
    [f]. *)
Theorem md5Buffer_hex32 (buf : Buffer) :
  String.length (md5Buffer buf) = 32 /\ all_hex (md5Buffer buf) = true.
Proof.
  unfold md5Buffer, MD5.digest. split.
  - rewrite hex_length, !length_app, !le_bytes_length. done.
  - apply hex_all_hex. rewrite !Forall_app. repeat split; apply le_bytes_range.
Qed.

(** ** [writeDb] and [readDb] *)

Lemma writeDb_run d o w :
  fault o (Mkdir DATA_DIR) = None ->
  fault o (WriteFile DATA_FILE) = None ->
  writeDb d o w
  = (Ok tt,
     World (ADMIN_TOKEN w)
           (Some (Stringified (JObj [("certificates", certificates d)])))
           (uploads w),
     [Mkdir DATA_DIR; WriteFile DATA_FILE]).
Proof.
  intros F1 F2. unfold writeDb. rewrite bind_run.
  unfold fs_mkdir. rewrite syscall_run, F1.
  unfold fs_writeFile_data. rewrite syscall_run, F2. reflexivity.
Qed.

(** X2: when its two system calls succeed, [writeDb] creates the directory,
    rewrites the snapshot file and touches nothing else; a [readDb] that
    follows hands back the value written whenever that value is truthy (any
    array, the empty one included), and the empty sequence when it is falsy
    ([null], [false], [0], the empty string). *)
Theorem writeDb_then_readDb d o o' w :
  fault o (Mkdir DATA_DIR) = None ->
  fault o (WriteFile DATA_FILE) = None ->
  let '(r, w1, t) := writeDb d o w in
  r = Ok tt
  /\ t = [Mkdir DATA_DIR; WriteFile DATA_FILE]
  /\ ADMIN_TOKEN w1 = ADMIN_TOKEN w /\ uploads w1 = uploads w
  /\ readDb o' w1
     = (Ok (Db (if truthy (Some (certificates d)) then certificates d else JArr [])),
        w1, []).
Proof.
  intros F1 F2. rewrite (writeDb_run d o w F1 F2).
  do 4 (split; [reflexivity|]). by rewrite readDb_loadAll.
Qed.

Lemma writeDb_then_readDb_witness :
  let '(r, w1, t) :=
    writeDb (Db (JArr [Scenario.alice_record])) Scenario.o1 Scenario.fresh in
  r = Ok tt
  /\ t = [Mkdir DATA_DIR; WriteFile DATA_FILE]
  /\ ADMIN_TOKEN w1 = ADMIN_TOKEN Scenario.fresh
  /\ uploads w1 = uploads Scenario.fresh
  /\ readDb Scenario.o2 w1 = (Ok (Db (JArr [Scenario.alice_record])), w1, []).
Proof.
  apply (writeDb_then_readDb (Db (JArr [Scenario.alice_record]))
           Scenario.o1 Scenario.o2 Scenario.fresh); reflexivity.
Defined.


(** ** The checks of the handlers *)

Lemma all_white_app l r : all_white (l +:+ r) = all_white l && all_white r.
Proof.
  induction l as [|c l IH]; [done|].
  rewrite append_cons. cbn [all_white]. rewrite IH. by destruct (is_white_space c).
Qed.

Lemma trimStart_all_white s : all_white s = true -> trimStart s = "".
Proof.
  induction s as [|c s IH]; [done|].
  cbn [all_white trimStart]. destruct (is_white_space c); [exact IH|done].
Qed.

Lemma trim_empty_iff s : trim s = "" <-> all_white s = true.
Proof.
  split.
  - intros He. destruct (trim_stripped s) as (l & r & Hs & Hl & Hr & _).
    rewrite He, append_nil in Hs. rewrite Hs, all_white_app, Hl, Hr. done.
  - intros Hw. unfold trim. by rewrite trimStart_all_white.
Qed.

Lemma field_empty_iff req k : field req k = Ok "" <-> blank req k.
Proof.
  rewrite field_of_submitted. unfold blank.
  destruct (submitted req k) as [raw|e].
  - split.
    + intros [= H]. exists raw. split; [done|]. by apply trim_empty_iff.
    + intros (raw' & [= <-] & H). f_equal. by apply trim_empty_iff.
  - split; [done|]. by intros (? & ? & _).
Qed.

Lemma metadata_of_submitted req :
  metadata req
  = (n ← submitted req "studentName";
     d ← submitted req "degree";
     i ← submitted req "issueDate";
     mret (trim n, trim d, trim i)).
Proof.
  unfold metadata. rewrite !field_of_submitted.
  destruct (submitted req "studentName"); [|done].
  destruct (submitted req "degree"); [|done].
  by destruct (submitted req "issueDate").
Qed.

(** The three metadata fields can all be read and one of them is empty once
    trimmed: said of the trimmed values, and of the texts submitted. *)
Lemma metadata_blank_iff req :
  (exists n d i, metadata req = Ok (n, d, i) /\ (n = "" \/ d = "" \/ i = ""))
  <-> exists n d i,
        submitted req "studentName" = Ok n /\ submitted req "degree" = Ok d
        /\ submitted req "issueDate" = Ok i
        /\ (all_white n = true \/ all_white d = true \/ all_white i = true).
Proof.
  rewrite metadata_of_submitted.
  destruct (submitted req "studentName") as [rn|]; cbn;
    [|split; [intros (? & ? & ? & ? & _)|intros (? & ? & ? & ? & _)]; done].
  destruct (submitted req "degree") as [rd|]; cbn;
    [|split; [intros (? & ? & ? & ? & _)|intros (? & ? & ? & _ & ? & _)]; done].
  destruct (submitted req "issueDate") as [ri|]; cbn;
    [|split; [intros (? & ? & ? & ? & _)|intros (? & ? & ? & _ & _ & ? & _)]; done].
  split.
  - intros (n & d & i & [= <- <- <-] & H). exists rn, rd, ri.
    rewrite <- !trim_empty_iff. done.
  - intros (n & d & i & [= <-] & [= <-] & [= <-] & H).
    exists (trim rn), (trim rd), (trim ri). rewrite !trim_empty_iff. done.
Qed.

(** X4: a request that reaches the file check and carries a buffer is
    answered 400 "Only PDF is allowed", with no effect, exactly when the type
    of the upload is not the string [application/pdf]. *)
Theorem only_pdf_iff rt req o w f buf :
  reaches_file_check rt w req ->
  req_file req = Some f -> buffer f = Some buf ->
  handler rt req o w = (failure 400 "Only PDF is allowed", w, [])
  <-> mimetype f <> "application/pdf".
Proof.
  intros Hreach Hf Hb. destruct rt; cbn [reaches_file_check] in Hreach.
  - change (handler POST_university_upload req o w)
      with (university_upload req o w).
    pose proof (university_upload_outcome req o w) as H.
    destruct (university_upload req o w) as [[r w'] t].
    inversion H; subst; unfold_responses;
      (split; [intros [= ]|intros Hno]); first [done | impossible].
  - change (handler POST_verify req o w) with (verify req o w).
    pose proof (verify_outcome_holds req o w) as H.
    destruct (verify req o w) as [[r w'] t].
    inversion H; subst; unfold_responses;
      (split; [intros [= ]|intros Hno]); first [done | impossible].
Qed.

Lemma only_pdf_iff_witness :
  handler POST_verify Cases.text_part Scenario.o1 Scenario.fresh
  = (failure 400 "Only PDF is allowed", Scenario.fresh, [])
  <-> "text/plain" <> "application/pdf".
Proof.
  apply (only_pdf_iff POST_verify Cases.text_part Scenario.o1 Scenario.fresh
           (File (Some Scenario.X) "text/plain") Scenario.X);
    [exact I|reflexivity|reflexivity].
Defined.

(** X5: a registration that passed the token check and carries a PDF buffer
    is answered 400 "Missing fields", with no effect, exactly when the texts
    of [studentName], [degree] and [issueDate] can all three be read and one
    of them is empty or made of white space only (a field that is not sent
    reads as the empty text).  A field that cannot be read raises before the
    check, whatever the others hold. *)
Theorem missing_fields_iff req o w buf :
  authorized w req -> pdf req buf ->
  university_upload req o w = (failure 400 "Missing fields", w, [])
  <-> exists n d i,
        submitted req "studentName" = Ok n /\ submitted req "degree" = Ok d
        /\ submitted req "issueDate" = Ok i
        /\ (all_white n = true \/ all_white d = true \/ all_white i = true).
Proof.
  intros Ha Hp. rewrite <- metadata_blank_iff.
  pose proof (university_upload_outcome req o w) as H.
  destruct (university_upload req o w) as [[r w'] t].
  inversion H; subst; unfold_responses;
    (split; [intros [= ]|intros (mn & md & mi & Hm & Hblank)]);
    try first [done | impossible | congruence | eauto 10].
  all: unpack;
    match goal with
    | Hf : fields_present _ |- _ =>
        destruct Hf as (pn & pd & pi & Hm' & ? & ? & ?)
    end;
    rewrite Hm in Hm'; injection Hm' as <- <- <-; tauto.
Qed.

Lemma missing_fields_iff_witness :
  university_upload Cases.blank_degree Scenario.o1 Scenario.fresh
  = (failure 400 "Missing fields", Scenario.fresh, [])
  <-> exists n d i,
        submitted Cases.blank_degree "studentName" = Ok n
        /\ submitted Cases.blank_degree "degree" = Ok d
        /\ submitted Cases.blank_degree "issueDate" = Ok i
        /\ (all_white n = true \/ all_white d = true \/ all_white i = true).
Proof.
  apply (missing_fields_iff Cases.blank_degree Scenario.o1 Scenario.fresh
           Scenario.X); concrete.
Defined.

(** X6: a request answered 400 or 401, on either route, has changed
    nothing: the world is the one it started from and no system call was
    made. *)
Theorem rejection_has_no_effect rt req o w :
  status (handler rt req o w).1.1 = 400 \/ status (handler rt req o w).1.1 = 401 ->
  (handler rt req o w).1.2 = w /\ (handler rt req o w).2 = [].
Proof.
  pose proof (caller_error_no_effect rt req o w) as H.
  by destruct (handler rt req o w) as [[r w'] t].
Qed.

Lemma rejection_has_no_effect_witness :
  (handler POST_university_upload Cases.blank_degree Scenario.o1 Scenario.fresh).1.2
  = Scenario.fresh
  /\ (handler POST_university_upload Cases.blank_degree Scenario.o1 Scenario.fresh).2
     = [].
Proof.
  apply (rejection_has_no_effect POST_university_upload Cases.blank_degree
           Scenario.o1 Scenario.fresh).
  left. reflexivity.
Defined.

(** X7: with no secret configured, with the empty secret, or with a secret
    that starts or ends with white space, no registration request gets past
    the token check: the token is trimmed and must be non-empty, so it can
    never equal such a secret.  A request whose token can be read is answered
    401; one whose token cannot be read raises on the first line and is
    answered 500; neither has any effect. *)
Theorem unusable_secret_rejects_all req o w :
  ADMIN_TOKEN w = None
  \/ (exists s, ADMIN_TOKEN w = Some s
                /\ (s = "" \/ starts_white s = true \/ ends_white s = true)) ->
  match submitted req "token" with
  | Ok _ => university_upload req o w = (failure 401 "Unauthorized (token)", w, [])
  | Throw e => university_upload req o w = (server_error e, w, [])
  end.
Proof.
  intros Hsecret.
  assert (Hna : ~ authorized w req).
  { intros (token & Htok & Hne & Heq).
    destruct Hsecret as [Hn|(s & Hs & Hbad)]; [congruence|].
    assert (s = token) as -> by congruence.
    apply field_submitted in Htok as (raw & _ & ->).
    destruct (trim_stripped raw) as (_ & _ & _ & _ & _ & Hstart & Hend).
    destruct Hbad as [?|[?|?]]; congruence. }
  pose proof (field_of_submitted req "token") as Hf.
  pose proof (university_upload_outcome req o w) as H.
  destruct (university_upload req o w) as [[r w'] t].
  destruct (submitted req "token") as [raw|e0];
    inversion H; subst; first [done | congruence | unpack; done].
Qed.

Lemma unusable_secret_rejects_all_witness :
  university_upload Scenario.alice Scenario.o1 Cases.padded_secret
  = (failure 401 "Unauthorized (token)", Cases.padded_secret, []).
Proof.
  apply (unusable_secret_rejects_all Scenario.alice Scenario.o1 Cases.padded_secret).
  right. exists " s3cret". split; [reflexivity|]. right; left. reflexivity.
Defined.

(** ** Scans of a well-formed store *)

Lemma Array_find_total md5 items :
  Forall (fun c => c <> JNull) items ->
  exists v, Array_find (same_md5 md5) items = Ok v.
Proof.
  induction 1 as [|c items Hc _ [v IH]]; [by exists None|].
  cbn [Array_find]. destruct (same_md5_not_null md5 c Hc) as [[] ->]; eauto.
Qed.

Lemma scannable_find d md5 : scannable d -> exists v, certificates_find d md5 = Ok v.
Proof.
  intros (items & Hd & Hall). unfold certificates_find. rewrite Hd.
  by apply Array_find_total.
Qed.

Lemma find_Some_stored d md5 c :
  certificates_find d md5 = Ok (Some c) -> md5 ∈ digests (records d).
Proof.
  intros H. pose proof (certificates_find_digest _ _ _ H) as Hd.
  unfold certificates_find, records, digests in *.
  destruct (certificates d) as [| | | |items|]; try done.
  apply Array_find_Some in H as (before & after & -> & _ & _).
  apply list_elem_of_omap. exists c. split; [|done].
  apply elem_of_app. right. left.
Qed.

Lemma readable_fields req :
  readable POST_university_upload req ->
  (exists token, field req "token" = Ok token)
  /\ exists n d i, metadata req = Ok (n, d, i).
Proof.
  intros Hr. cbn in Hr.
  destruct (Hr "token") as [rt Ht]; [set_solver|].
  destruct (Hr "studentName") as [rn Hn]; [set_solver|].
  destruct (Hr "degree") as [rd Hd]; [set_solver|].
  destruct (Hr "issueDate") as [ri Hi]; [set_solver|].
  rewrite field_of_submitted, metadata_of_submitted, Ht, Hn, Hd, Hi.
  split; eauto.
Qed.

Lemma healthy_scannable_status rt req o w :
  healthy o -> scannable (loadAll w) -> readable rt req ->
  In (status (handler rt req o w).1.1) [200; 400; 401].
Proof.
  intros Ho Hs Hr. destruct rt.
  - change (handler POST_university_upload req o w)
      with (university_upload req o w).
    destruct (readable_fields req Hr) as [[token Htok] (n & d & i & Hmeta)].
    pose proof (university_upload_outcome req o w) as H.
    destruct (university_upload req o w) as [[r w'] t].
    inversion H; subst; cbn; try tauto; try congruence;
      try (rewrite Ho in *; done).
    match goal with
    | Hf : findByDigest _ ?m = Throw _ |- _ =>
        destruct (scannable_find _ m Hs) as [v Hv]; unfold findByDigest in Hf;
        congruence
    end.
  - change (handler POST_verify req o w) with (verify req o w).
    pose proof (verify_outcome_holds req o w) as H.
    destruct (verify req o w) as [[r w'] t].
    inversion H; subst; cbn; try tauto.
    match goal with
    | Hf : findByDigest _ ?m = Throw _ |- _ =>
        destruct (scannable_find _ m Hs) as [v Hv]; unfold findByDigest in Hf;
        congruence
    end.
Qed.

(** X8: when no system call fails, the store read from the snapshot file
    is a sequence without [null] entries (a missing or unreadable file counts:
    it reads as the empty sequence) and the form fields the route reads can
    be read, the request is not answered 500: the status is 200, 400 or
    401. *)
Theorem healthy_never_500 rt req o w :
  healthy o -> scannable (loadAll w) -> readable rt req ->
  In (status (handler rt req o w).1.1) [200; 400; 401].
Proof. apply healthy_scannable_status. Qed.

Lemma healthy_never_500_witness :
  In (status (handler POST_university_upload Scenario.alice Scenario.o1
                      Scenario.fresh).1.1) [200; 400; 401].
Proof.
  apply (healthy_never_500 POST_university_upload Scenario.alice Scenario.o1
           Scenario.fresh).
  - intros ev. reflexivity.
  - exists []. split; [reflexivity|constructor].
  - intros name Hin. cbn in Hin.
    rewrite !elem_of_cons, elem_of_nil in Hin.
    destruct Hin as [->|[->|[->|[->|[]]]]]; eexists; reflexivity.
Defined.

(** X9: on a store without [null] entries, a verification that carries a
    PDF buffer answers [valid: true] exactly when some stored object has the
    digest of the buffer as its [md5], and [valid: false] otherwise. *)
Theorem verify_valid_iff_stored req o w buf :
  scannable (loadAll w) -> pdf req buf ->
  response_prop (verify req o w).1.1 "valid"
  = Some (JBool (bool_decide (md5Buffer buf ∈ digests (records (loadAll w))))).
Proof.
  intros Hs Hp.
  destruct (scannable_find _ (md5Buffer buf) Hs) as [[c|] Hfind].
  - rewrite (verify_match req o w buf c Hp Hfind).
    rewrite bool_decide_eq_true_2 by (by eapply find_Some_stored).
    reflexivity.
  - rewrite (verify_no_match req o w buf Hp Hfind).
    rewrite bool_decide_eq_false_2 by (by apply find_None_fresh).
    reflexivity.
Qed.

Lemma verify_valid_iff_stored_witness :
  response_prop (verify Cases.carol Scenario.o1 Scenario.with_alice).1.1 "valid"
  = Some (JBool (bool_decide
       (md5Buffer Scenario.Y ∈ digests (records (loadAll Scenario.with_alice))))).
Proof.
  apply (verify_valid_iff_stored Cases.carol Scenario.o1 Scenario.with_alice
           Scenario.Y).
  - exists [Scenario.alice_record]. split; [reflexivity|].
    constructor; [discriminate|constructor].
  - concrete.
Defined.

(** ** Registration followed by other requests *)

(** A registration answered 200 leaves the digest of its upload in the
    store, attached to the certificate it answers with. *)
Lemma upload_ok_found req o w buf :
  pdf req buf ->
  status (university_upload req o w).1.1 = 200 ->
  exists c,
    response_prop (university_upload req o w).1.1 "certificate" = Some c
    /\ response_prop (university_upload req o w).1.1 "md5"
       = Some (JStr (md5Buffer buf))
    /\ findByDigest (university_upload req o w).1.2 (md5Buffer buf) = Ok (Some c).
Proof.
  intros Hp.
  pose proof (university_upload_outcome req o w) as H.
  destruct (university_upload req o w) as [[r w'] t].
  inversion H; subst; cbn [fst snd]; try (cbn; discriminate); intros _; unpack.
  - by exists c.
  - exists (record_of req o buf). repeat split.
    unfold findByDigest. rewrite loadAll_rewritten. apply find_new_record.
Qed.

(** X10: whenever a registration is answered 200, as a new record or as a
    duplicate, a verification of the same bytes that follows answers
    [valid: true] with the digest and with the [studentName], [degree],
    [issueDate] and [createdAt] of the certificate the registration answered
    with. *)
Theorem registered_then_verifiable req req' o o' w buf :
  pdf req buf -> pdf req' buf ->
  status (university_upload req o w).1.1 = 200 ->
  exists c,
    response_prop (university_upload req o w).1.1 "certificate" = Some c
    /\ verify req' o' (university_upload req o w).1.2
       = (match_response (md5Buffer buf) c, (university_upload req o w).1.2, []).
Proof.
  intros Hp Hp' Hok.
  destruct (upload_ok_found req o w buf Hp Hok) as (c & Hc & _ & Hfind).
  exists c. split; [done|]. by apply verify_match.
Qed.

Lemma registered_then_verifiable_witness :
  exists c,
    response_prop
      (university_upload Scenario.bob Scenario.o2 Scenario.with_alice).1.1
      "certificate" = Some c
    /\ verify Scenario.alice Scenario.o1
         (university_upload Scenario.bob Scenario.o2 Scenario.with_alice).1.2
       = (match_response (md5Buffer Scenario.X) c,
          (university_upload Scenario.bob Scenario.o2 Scenario.with_alice).1.2, []).
Proof.
  apply (registered_then_verifiable Scenario.bob Scenario.alice Scenario.o2
           Scenario.o1 Scenario.with_alice Scenario.X); concrete.
Defined.



(** X12: a response with status 200, on either route, carries in [md5] the
    digest of the uploaded buffer. *)
Theorem ok_response_carries_digest rt req o w buf :
  pdf req buf ->
  status (handler rt req o w).1.1 = 200 ->
  response_prop (handler rt req o w).1.1 "md5" = Some (JStr (md5Buffer buf)).
Proof.
  intros Hp Hok. destruct rt.
  - change (handler POST_university_upload req o w)
      with (university_upload req o w) in *.
    by destruct (upload_ok_found req o w buf Hp Hok) as (c & _ & ? & _).
  - change (handler POST_verify req o w) with (verify req o w) in *.
    pose proof (verify_outcome_holds req o w) as H.
    destruct (verify req o w) as [[r w'] t].
    inversion H; subst; first [discriminate Hok | unpack; reflexivity].
Qed.

Lemma ok_response_carries_digest_witness :
  response_prop (handler POST_verify Cases.carol Scenario.o1 Scenario.with_alice).1.1
                "md5"
  = Some (JStr (md5Buffer Scenario.Y)).
Proof.
  apply (ok_response_carries_digest POST_verify Cases.carol Scenario.o1
           Scenario.with_alice Scenario.Y); concrete.
Defined.

(** X13: the answer of a verification depends on the uploaded part and on
    the snapshot file only: the form fields (a token included), the
    configured secret, the archived files, the clock and the random source
    play no part. *)
Theorem verify_reads_upload_and_snapshot_only req req' o o' w w' :
  req_file req = req_file req' ->
  data_file w = data_file w' ->
  (verify req o w).1.1 = (verify req' o' w').1.1.
Proof.
  intros Hf Hd. unfold verify, respond, verify_try. rewrite <- Hf.
  destruct (req_file req) as [f|]; [|done].
  destruct (buffer f) as [buf|]; [|done].
  destruct (negb (bool_decide (mimetype f = "application/pdf"))); [done|].
  rewrite !bind_run, !readDb_loadAll, !bind_run, !lift_run.
  rewrite (loadAll_data_file w w') by done.
  destruct (certificates_find (loadAll w) (md5Buffer buf)) as [[c|]|e];
    [|done|done].
  destruct (truthy (Some c)); [|done]. cbn [negb].
  rewrite !bind_run, !lift_run.
  destruct (get c "studentName"); [|done]. rewrite !bind_run, !lift_run.
  destruct (get c "degree"); [|done]. rewrite !bind_run, !lift_run.
  destruct (get c "issueDate"); [|done]. rewrite !bind_run, !lift_run.
  destruct (get c "createdAt"); done.
Qed.

Lemma verify_reads_upload_and_snapshot_only_witness :
  (verify Scenario.alice Scenario.o1 Scenario.with_alice).1.1
  = (verify (Request (Some ∅) (Scenario.pdf_part Scenario.X)) Scenario.o2
            (World None (data_file Scenario.with_alice) ∅)).1.1.
Proof.
  apply (verify_reads_upload_and_snapshot_only Scenario.alice
           (Request (Some ∅) (Scenario.pdf_part Scenario.X)) Scenario.o1 Scenario.o2
           Scenario.with_alice (World None (data_file Scenario.with_alice) ∅));
    reflexivity.
Defined.

(** ** The archive *)

(** X14: once the token, file, type and field checks are passed and the two
    archive calls succeed, the uploaded bytes are in [uploads/] under
    [<id>.pdf], [id] being the random identifier of the request, whatever
    happens next: a duplicate digest, a scan that raises, a store that cannot
    be written, or a new record. *)
Theorem upload_is_archived req o w buf :
  accepted w req buf ->
  fault o (Mkdir UPLOADS_DIR) = None ->
  fault o (WriteFile (path_join UPLOADS_DIR (randomBytes_hex o +:+ ".pdf"))) = None ->
  uploads (university_upload req o w).1.2 !! (randomBytes_hex o +:+ ".pdf")
  = Some buf.
Proof.
  intros Hacc F1 F2. fold (filename_of o) in *.
  pose proof (university_upload_outcome req o w) as H.
  destruct (university_upload req o w) as [[r w'] t].
  inversion H; subst; try impossible; unpack;
    try match goal with d : damage |- _ => destruct d end;
    cbn; apply lookup_insert_eq.
Qed.

Lemma upload_is_archived_witness :
  uploads (university_upload Scenario.alice Cases.store_write_fails Scenario.fresh).1.2
    !! ("0123456789abcdef" +:+ ".pdf")
  = Some Scenario.X.
Proof.
  apply (upload_is_archived Scenario.alice Cases.store_write_fails Scenario.fresh
           Scenario.X); concrete.
Defined.

(** X15: a registration request, however it ends, leaves the configured
    secret and every archived file other than its own [<id>.pdf] as they
    were: nothing is deleted from [uploads/], and only that one name can be
    created or overwritten. *)
Theorem upload_archive_frame req o w name :
  name <> randomBytes_hex o +:+ ".pdf" ->
  uploads (university_upload req o w).1.2 !! name = uploads w !! name
  /\ ADMIN_TOKEN (university_upload req o w).1.2 = ADMIN_TOKEN w.
Proof.
  intros Hne. fold (filename_of o) in *.
  pose proof (university_upload_outcome req o w) as H.
  destruct (university_upload req o w) as [[r w'] t].
  inversion H; subst;
    try match goal with d : damage |- _ => destruct d end;
    cbn; (split; [|done]); try done;
    by apply lookup_insert_ne.
Qed.

Lemma upload_archive_frame_witness :
  uploads (university_upload Scenario.bob Scenario.o2 Scenario.with_alice).1.2
    !! "0123456789abcdef.pdf"
  = uploads Scenario.with_alice !! "0123456789abcdef.pdf"
  /\ ADMIN_TOKEN (university_upload Scenario.bob Scenario.o2 Scenario.with_alice).1.2
     = ADMIN_TOKEN Scenario.with_alice.
Proof.
  apply (upload_archive_frame Scenario.bob Scenario.o2 Scenario.with_alice
           "0123456789abcdef.pdf").
  discriminate.
Defined.

(** ** The snapshot file *)

(** X16: a registration that creates a record rewrites the snapshot file as
    an object with the single property [certificates], whose value is the new
    record followed by the records read before, in their order; any other
    property the file had is gone.  The record holds the random identifier,
    the digest, the trimmed fields, [<id>.pdf] and the time of the request. *)
Theorem created_snapshot req o w buf :
  accepted w req buf ->
  findByDigest w (md5Buffer buf) = Ok None ->
  healthy o ->
  data_file (university_upload req o w).1.2
  = Some (Stringified (JObj
      [("certificates",
        JArr (JObj [("id", JStr (randomBytes_hex o));
                    ("md5", JStr (md5Buffer buf));
                    ("studentName", JStr (trim (submitted_text req "studentName")));
                    ("degree", JStr (trim (submitted_text req "degree")));
                    ("issueDate", JStr (trim (submitted_text req "issueDate")));
                    ("storedFile", JStr (randomBytes_hex o +:+ ".pdf"));
                    ("createdAt", JStr (now_iso o))]
              :: records (loadAll w)))])).
Proof.
  intros Hacc Hfind Ho. rewrite (upload_created req o w buf Hacc Hfind Ho).
  cbn. unfold record_of. by rewrite !field_value_trim.
Qed.

Lemma created_snapshot_witness :
  data_file (university_upload Scenario.alice Scenario.o1 Cases.versioned).1.2
  = Some (Stringified (JObj [("certificates", JArr [Scenario.alice_record])])).
Proof.
  apply (created_snapshot Scenario.alice Scenario.o1 Cases.versioned Scenario.X);
    concrete.
Defined.

(** X17: a [null] entry in the stored sequence makes the scan raise as soon
    as it is reached: a verification whose digest is not found among the
    entries in front of the [null] is answered 500 with the text of the
    TypeError, even when a matching record comes after it. *)
Theorem null_entry_breaks_lookup req o w buf before after :
  pdf req buf ->
  certificates (loadAll w) = JArr (before ++ JNull :: after) ->
  Forall (fun c => c <> JNull /\ digest_of c <> Some (md5Buffer buf)) before ->
  verify req o w
  = (res_status_json 500
       (JObj [("ok", JBool false); ("message", JStr "Server error");
              ("error",
               JStr "TypeError: Cannot read properties of null (reading 'md5')")]),
     w, []).
Proof.
  intros Hp Hc Hbefore.
  assert (Hfind : findByDigest w (md5Buffer buf)
                  = Throw (TypeError "Cannot read properties of null (reading 'md5')")).
  { unfold findByDigest, certificates_find. rewrite Hc. clear Hc.
    induction Hbefore as [|c before [Hn Hd] _ IH]; [reflexivity|].
    cbn [app Array_find].
    destruct (same_md5_not_null (md5Buffer buf) c Hn) as [[] Hb]; rewrite Hb.
    - by apply same_md5_true in Hb.
    - exact IH. }
  pose proof (verify_outcome_holds req o w) as H.
  destruct (verify req o w) as [[r w'] t].
  inversion H; subst; try impossible.
  unpack.
  match goal with
  | Hf : findByDigest _ _ = Throw ?e |- _ =>
      assert (e = TypeError "Cannot read properties of null (reading 'md5')")
        as -> by congruence
  end.
  reflexivity.
Qed.

Lemma null_entry_breaks_lookup_witness :
  verify Scenario.alice Scenario.o1 Cases.null_entry
  = (res_status_json 500
       (JObj [("ok", JBool false); ("message", JStr "Server error");
              ("error",
               JStr "TypeError: Cannot read properties of null (reading 'md5')")]),
     Cases.null_entry, []).
Proof.
  apply (null_entry_breaks_lookup Scenario.alice Scenario.o1 Cases.null_entry
           Scenario.X [] [Scenario.alice_record]).
  - concrete.
  - reflexivity.
  - constructor.
Defined.

(** ** Any sequence of requests *)

Lemma sound_store_scannable w : sound_store w -> scannable (loadAll w).
Proof.
  intros (items & Hc & Hrec & _). exists items. split; [done|].
  eapply Forall_impl; [exact Hrec|].
  intros c (? & ? & ? & ? & ? & ? & ? & ->). discriminate.
Qed.

Lemma verify_world req o w : (verify req o w).1.2 = w.
Proof.
  pose proof (verify_outcome_holds req o w) as H.
  destruct (verify req o w) as [[r w'] t]. by inversion H.
Qed.

Lemma handler_sound rt req o w :
  sound_store w -> sound_store (handler rt req o w).1.2.
Proof.
  intros Hs. destruct rt.
  - change (handler POST_university_upload req o w)
      with (university_upload req o w).
    destruct (upload_store req o w)
      as [Hsame|[(buf & _ & Hfind & Hload)|(buf & e & kept & _ & _ & _ & Hload)]].
    + unfold sound_store. by rewrite (loadAll_data_file _ _ Hsame).
    + destruct Hs as (items & Hc & Hrec & Hnd).
      pose proof (find_None_fresh _ _ Hfind) as Hfresh.
      unfold records in Hload, Hfresh. rewrite Hc in Hload, Hfresh.
      exists (record_of req o buf :: items). rewrite Hload.
      split; [done|]. split.
      * constructor; [|done]. unfold record_of, is_record. eauto 10.
      * rewrite digests_new_record. by apply NoDup_cons.
    + exists []. rewrite Hload. split; [done|]. split; constructor.
  - change (handler POST_verify req o w) with (verify req o w).
    by rewrite verify_world.
Qed.

(** X18: starting from a store made of records of the registration handler
    with pairwise distinct digests (a missing snapshot file is one), any
    sequence of requests to the two routes, served one after the other,
    leaves such a store, whatever fails on the way; and if no system call
    fails and every request has form fields that can be read, no request of
    the sequence is answered 500. *)
Theorem serve_all_sound reqs w :
  sound_store w ->
  sound_store (serve_all reqs w).2
  /\ (Forall (fun q => healthy q.2 /\ readable q.1.1 q.1.2) reqs ->
      Forall (fun r => In (status r) [200; 400; 401]) (serve_all reqs w).1).
Proof.
  revert w. induction reqs as [|[[rt req] o] reqs IH]; intros w Hs.
  - split; [done|]. by constructor.
  - cbn [serve_all].
    pose proof (handler_sound rt req o w Hs) as Hs1.
    pose proof (healthy_scannable_status rt req o w) as Hst.
    destruct (handler rt req o w) as [[r w1] t]. cbn [fst snd] in *.
    destruct (IH w1 Hs1) as [IH1 IH2].
    destruct (serve_all reqs w1) as [rs w2]. cbn [fst snd] in *.
    split; [done|]. intros Hall. apply Forall_cons in Hall as [[Ho Hr] Hall].
    constructor; [|by apply IH2].
    apply Hst; [exact Ho|by apply sound_store_scannable|exact Hr].
Qed.

Lemma serve_all_sound_witness :
  sound_store
    (serve_all [(POST_university_upload, Scenario.alice, Scenario.o1);
                (POST_verify, Scenario.alice, Scenario.o2);
                (POST_university_upload, Scenario.bob, Cases.store_write_fails)]
               Scenario.fresh).2
  /\ (Forall (fun q => healthy q.2 /\ readable q.1.1 q.1.2)
        [(POST_university_upload, Scenario.alice, Scenario.o1);
         (POST_verify, Scenario.alice, Scenario.o2);
         (POST_university_upload, Scenario.bob, Cases.store_write_fails)] ->
      Forall (fun r => In (status r) [200; 400; 401])
        (serve_all [(POST_university_upload, Scenario.alice, Scenario.o1);
                    (POST_verify, Scenario.alice, Scenario.o2);
                    (POST_university_upload, Scenario.bob, Cases.store_write_fails)]
                   Scenario.fresh).1).
Proof.
  apply (serve_all_sound
           [(POST_university_upload, Scenario.alice, Scenario.o1);
            (POST_verify, Scenario.alice, Scenario.o2);
            (POST_university_upload, Scenario.bob, Cases.store_write_fails)]
           Scenario.fresh).
  exists []. split; [reflexivity|]. split; constructor.
Defined.

